(** * APIm Import Action: the pipeline of [index.js], embedded and verified

    The action reads its inputs from the process environment, optionally
    renders a ytt template, parses the document, optionally validates it
    against a remote JSON Schema and uploads it.  The repository holds the
    program twice: [src/index.js] and the committed bundle [dist/index.js].

    Everything the program does to the outside (file system, network, child
    processes, module loading, console) goes through a [World] of oracles and
    is recorded, in order, in a trace of events.  The program itself is
    written in a small trace-and-exception monad, one Rocq definition per
    JavaScript function, under the JavaScript name. *)

From Stdlib Require Import Ascii String List Bool ZArith Lia PrimFloat.
From stdpp Require Import base gmap strings pretty.
Import ListNotations.

Local Open Scope string_scope.
Local Open Scope list_scope.
Local Set Warnings "-register-all".

(** ** JavaScript strings

    A string is a sequence of code units; the model keeps the 8-bit ones.
    Case mapping moves the ASCII letters and leaves every other unit alone,
    and white space is the ASCII part of what [String.prototype.trim] strips:
    TAB, LF, VT, FF, CR and SPACE. *)

Module JsString.

Definition code (c : ascii) : nat := nat_of_ascii c.

Definition is_upper (c : ascii) : bool := (65 <=? code c)%nat && (code c <=? 90)%nat.
Definition is_lower (c : ascii) : bool := (97 <=? code c)%nat && (code c <=? 122)%nat.

Definition lower_unit (c : ascii) : ascii :=
    if is_upper c then ascii_of_nat (code c + 32) else c.
Definition upper_unit (c : ascii) : ascii :=
    if is_lower c then ascii_of_nat (code c - 32) else c.

Fixpoint map_units (f : ascii -> ascii) (s : string) : string :=
    match s with
    | EmptyString => EmptyString
    | String c r => String (f c) (map_units f r)
    end.

  (** [s.toLowerCase()] and [s.toUpperCase()]. *)
Definition toLowerCase (s : string) : string := map_units lower_unit s.
Definition toUpperCase (s : string) : string := map_units upper_unit s.

  (** [s.replace(/ /g, "_")]. *)
Definition replace_spaces (s : string) : string :=
    map_units (fun c => if Ascii.eqb c " " then "_"%char else c) s.

Definition is_space (c : ascii) : bool :=
    ((9 <=? code c)%nat && (code c <=? 13)%nat) || (code c =? 32)%nat.

Fixpoint trimStart (s : string) : string :=
    match s with
    | EmptyString => EmptyString
    | String c r => if is_space c then trimStart r else s
    end.

Fixpoint trimEnd (s : string) : string :=
    match s with
    | EmptyString => EmptyString
    | String c r =>
        match trimEnd r with
        | EmptyString => if is_space c then EmptyString else String c EmptyString
        | r' => String c r'
        end
    end.

  (** [s.trim()]. *)
Definition trim (s : string) : string := trimEnd (trimStart s).

  (** [s.startsWith(p)]. *)
Definition startsWith (s p : string) : bool := String.prefix p s.

  (** [s.endsWith(p)]: the [p.length] units that end [s] are [p]. *)
Definition endsWith (s p : string) : bool :=
    let n := String.length s in
    let m := String.length p in
    if (m <=? n)%nat then String.eqb (String.substring (n - m) m s) p else false.

  (** [s.split(sep)] for a separator of one unit: the pieces between the
      separators, empty pieces kept, so that [""] gives one empty piece. *)
Fixpoint split (sep : ascii) (s : string) : list string :=
    match s with
    | EmptyString => [EmptyString]
    | String c r =>
        if Ascii.eqb c sep then EmptyString :: split sep r
        else match split sep r with
             | [] => [String c EmptyString]
             | p :: ps => String c p :: ps
             end
    end.

  (** [xs.join(sep)], also the shape of [map(..).reduce((t, m) => t + sep + m)]
      on a list that is not empty. *)
Fixpoint join (sep : string) (xs : list string) : string :=
    match xs with
    | [] => EmptyString
    | [x] => x
    | x :: rest => x +:+ sep +:+ join sep rest
    end.

  (** A string in a condition: only the empty string is falsy. *)
Definition truthy (s : string) : bool := negb (String.eqb s "").

  (** [a || b] on strings. *)
Definition or_else (a b : string) : string := if truthy a then a else b.

End JsString.
Import JsString.

(** ** Values, errors and results *)

(** A JavaScript value as [JSON.parse] and [yaml.load] produce them: numbers
    are binary64, an object keeps its members in insertion order.
    [JUndefined] is what [yaml.load] gives for an empty document. *)
Inductive Json : Type :=
| JUndefined
| JNull
| JBool (b : bool)
| JNumber (x : float)
| JString (s : string)
| JArray (items : list Json)
| JObject (members : list (string * Json)).

(** A call either returns or throws an [Error] carrying a message. *)
Inductive result (A : Type) : Type :=
| Ok (a : A)
| Throw (message : string).
Arguments Ok {A} a.
Arguments Throw {A} message.

(** The line feed, ["\n"] in the source. *)
Definition LF : string := String (ascii_of_nat 10) EmptyString.

(** [`${n}`] for a number that is a natural, as an HTTP status is. *)
Definition show_number (n : N) : string := pretty n.

(** ** The outside world

    What the program sends out and what it touches, in the order it does. *)

Inductive Method : Type := GET | POST.

(** The arguments of one [fetch] call.  [fetch(url)] alone is a GET with no
    header and no body. *)
Record Request : Type := {
  req_method : Method;
  req_url : string;
  req_headers : list (string * string);
  req_body : option string
}.

Definition get_request (url : string) : Request :=
  {| req_method := GET; req_url := url; req_headers := []; req_body := None |}.

(** A [Response]: [ok] is derived from the status as the Fetch standard has
    it; the body is read by [text()], [json()] or [arrayBuffer()]. *)
Record Response : Type := {
  status : N;
  statusText : string;
  body : string
}.

Definition ok (r : Response) : bool := (200 <=? status r)%N && (status r <=? 299)%N.

(** The options of an [execFile] call that the program sets. *)
Record ExecOptions : Type := {
  cwd : option string;
  maxBuffer : option N
}.

Inductive Event : Type :=
| EvAccess (path : string)                       (* fs.accessSync(path, F_OK) *)
| EvMkdtemp (prefix : string)                    (* fsp.mkdtemp(prefix) *)
| EvReadFile (path : string)                     (* fsp.readFile(path, "utf8") *)
| EvWriteFile (path : string) (data : string)    (* fsp.writeFile(path, buffer) *)
| EvChmod (path : string) (mode : N)             (* fsp.chmod(path, mode) *)
| EvFetch (req : Request)                        (* fetch(url, init) *)
| EvExecFile (file : string) (args : list string) (opts : ExecOptions)
| EvRequire (id : string)                        (* require(id) *)
| EvLog (text : string)                          (* console.log(text) *)
| EvError (shown : option string).               (* console.error(message || error) *)

Definition Trace : Type := list Event.

(** One violation as Ajv reports it; [errorsText] reads these two fields. *)
Record ErrorObject : Type := {
  instancePath : string;
  message : string
}.

(** The function [ajv.compile] returns: [validate(document)] answers with
    the boolean and leaves the violations in [validate.errors]. *)
Definition ValidateFunction : Type := Json -> bool * list ErrorObject.

(** A validator instance, by what the program does with it. *)
Record AjvInstance : Type := {
  compile : Json -> result ValidateFunction
}.

(** The options object [{ allErrors, strict }]. *)
Record AjvOptions : Type := {
  allErrors : bool;
  strict : bool
}.

(** Whatever [require] returned, by the three ways the program uses a
    module: as a class ([new M(options)]), as a plugin ([M(ajv)], which
    changes the instance it is given) and as the YAML library
    ([M.load(raw)]).  A module that is not fit for a use throws there. *)
Record NodeModule : Type := {
  construct : AjvOptions -> result AjvInstance;
  call : AjvInstance -> result AjvInstance;
  load : string -> result Json
}.

(** The environment of one run.  The oracles that stand for stateful
    services take the trace so far: what they answer may depend on what the
    program has already done (a file written, a package installed). *)
Record World : Type := {
  env : gmap string string;                               (* process.env *)
  platform : string;                                      (* os.platform() *)
  arch : string;                                          (* os.arch() *)
  tmpdir : string;                                        (* os.tmpdir() *)
  path_join : list string -> string;                      (* path.join(...) *)
  path_resolve : string -> string;                        (* path.resolve(p) *)
  JSON_parse : string -> result Json;                     (* JSON.parse(text) *)
  JSON_stringify : Json -> option string;                 (* JSON.stringify(v) *)
  fs_access : Trace -> string -> bool;
  fs_mkdtemp : Trace -> string -> result string;
  fs_readFile : Trace -> string -> result string;
  fs_writeFile : Trace -> string -> string -> result unit;
  fs_chmod : Trace -> string -> N -> result unit;
  net_fetch : Trace -> Request -> result Response;
  proc_execFile : Trace -> string -> list string -> ExecOptions -> result (string * string);
  node_require : Trace -> string -> result NodeModule
}.

(** ** The monad: a trace that grows, and exceptions *)

Definition M (A : Type) : Type := Trace -> Trace * result A.

Definition ret {A} (a : A) : M A := fun tr => (tr, Ok a).

Definition throw {A} (msg : string) : M A := fun tr => (tr, Throw msg).

Definition bind {A B} (m : M A) (k : A -> M B) : M B :=
  fun tr =>
    match m tr with
    | (tr', Ok a) => k a tr'
    | (tr', Throw e) => (tr', Throw e)
    end.

(** [try { m } catch { handler }], the caught error not looked at. *)
Definition try_catch {A} (m : M A) (handler : M A) : M A :=
  fun tr =>
    match m tr with
    | (tr', Ok a) => (tr', Ok a)
    | (tr', Throw _) => handler tr'
    end.

(** A call with no effect on the outside. *)
Definition lift {A} (r : result A) : M A := fun tr => (tr, r).

(** A call to the outside: recorded, then answered from the trace before it. *)
Definition effect {A} (e : Event) (answer : Trace -> result A) : M A :=
  fun tr => (tr ++ [e], answer tr).

Declare Scope js_scope.
Delimit Scope js_scope with js.
Notation "x <- m ;; k" := (bind m (fun x => k))
  (at level 100, m at next level, right associativity) : js_scope.
Notation "m ;; k" := (bind m (fun _ => k))
  (at level 100, right associativity) : js_scope.
Local Open Scope js_scope.

Definition trace_of {A} (o : Trace * result A) : Trace := fst o.
Definition outcome_of {A} (o : Trace * result A) : result A := snd o.

(** The calls to the outside, each one an event. *)
Section Primitives.
Variable w : World.

Definition accessSync (p : string) : M bool :=
    effect (EvAccess p) (fun tr => Ok (fs_access w tr p)).
Definition mkdtemp (prefix : string) : M string :=
    effect (EvMkdtemp prefix) (fun tr => fs_mkdtemp w tr prefix).
Definition readFile (p : string) : M string :=
    effect (EvReadFile p) (fun tr => fs_readFile w tr p).
Definition writeFile (p data : string) : M unit :=
    effect (EvWriteFile p data) (fun tr => fs_writeFile w tr p data).
Definition chmod (p : string) (mode : N) : M unit :=
    effect (EvChmod p mode) (fun tr => fs_chmod w tr p mode).
Definition fetch (req : Request) : M Response :=
    effect (EvFetch req) (fun tr => net_fetch w tr req).
Definition execFileAsync (file : string) (args : list string) (opts : ExecOptions)
    : M (string * string) :=
    effect (EvExecFile file args opts) (fun tr => proc_execFile w tr file args opts).
Definition require (id : string) : M NodeModule :=
    effect (EvRequire id) (fun tr => node_require w tr id).
Definition console_log (text : string) : M unit :=
    effect (EvLog text) (fun _ => Ok tt).

End Primitives.

(** ** The functions both files share

    [src/index.js] lines 12-131 and 153-169 are, line for line,
    [dist/index.js] lines 92-211 and 233-249. *)

Module Common.
Section Shared.
Variable w : World.

  (** The key of line 13: [`INPUT_${name.replace(/ /g, "_").toUpperCase()}`]. *)
Definition input_key (name : string) : string :=
    "INPUT_" +:+ toUpperCase (replace_spaces name).

  (** [getInput(name, options)]; [required] is [options.required], absent
      when [options] is left out. *)
Definition getInput (name : string) (required : bool) : result string :=
    let key := input_key name in
    let value := env w !! key in
    if required && match value with
                   | None => true
                   | Some v => negb (truthy v) || String.eqb (trim v) ""
                   end
    then Throw ("Missing required input: " +:+ name)
    else Ok (match value with
             | None => ""
             | Some v => or_else v ""
             end).

Definition parseBoolean (value : string) (defaultValue : bool) : bool :=
    if String.eqb value "" then defaultValue
    else existsb (String.eqb (toLowerCase value)) ["1"; "true"; "yes"; "on"].

Definition fileExists (filePath : string) : M bool :=
    accessSync w filePath.

Definition ensureModule (moduleName version : string) : M NodeModule :=
    try_catch (require w moduleName)
      (tempDir <- mkdtemp w (path_join w [tmpdir w; "apim-action-"]) ;;
       let pkg := if truthy version then moduleName +:+ "@" +:+ version else moduleName in
       _ <- execFileAsync w "npm"
              ["install"; "--silent"; "--no-fund"; "--no-audit"; pkg]
              {| cwd := Some tempDir; maxBuffer := None |} ;;
       let modulePath := path_join w [tempDir; "node_modules"; moduleName] in
       require w modulePath).

  (** The asset of a release: its [url] and its [fileName]. *)
Definition resolveYttAsset (version : string) : result (string * string) :=
    let platform := platform w in
    let arch := arch w in
    match
      (if String.eqb platform "darwin" then Ok "darwin"
       else if String.eqb platform "linux" then Ok "linux"
       else Throw ("Unsupported OS for ytt: " +:+ platform))
    with
    | Throw e => Throw e
    | Ok osName =>
        match
          (if String.eqb arch "x64" then Ok "amd64"
           else if String.eqb arch "arm64" then Ok "arm64"
           else Throw ("Unsupported architecture for ytt: " +:+ arch))
        with
        | Throw e => Throw e
        | Ok archName =>
            let fileName := "ytt-" +:+ osName +:+ "-" +:+ archName in
            let url := "https://github.com/carvel-dev/ytt/releases/download/"
                       +:+ version +:+ "/" +:+ fileName in
            Ok (url, fileName)
        end
    end.

Definition ensureYtt (version : string) : M string :=
    found <- fileExists "ytt" ;;
    if found then ret (path_resolve w "ytt")
    else
      asset <- lift (resolveYttAsset version) ;;
      let '(url, fileName) := asset in
      downloadDir <- mkdtemp w (path_join w [tmpdir w; "apim-ytt-"]) ;;
      let targetPath := path_join w [downloadDir; fileName] in
      response <- fetch w (get_request url) ;;
      if negb (ok response)
      then throw ("Failed to download ytt: " +:+ show_number (status response)
                  +:+ " " +:+ statusText response)
      else
        let buffer := body response in
        _ <- writeFile w targetPath buffer ;;
        _ <- chmod w targetPath 493 (* 0o755 *) ;;
        ret targetPath.

Definition renderWithYtt (templatePath valuesPath yttArgs yttVersion : string) : M string :=
    yttBin <- ensureYtt yttVersion ;;
    let args := ["-f"; templatePath] in
    let args := if truthy valuesPath then args ++ ["-f"; valuesPath] else args in
    let args :=
      if truthy yttArgs
      then let extraArgs :=
             filter (fun item => negb (String.eqb (trim item) "")) (split " " yttArgs) in
           args ++ extraArgs
      else args in
    out <- execFileAsync w yttBin args
             {| cwd := None; maxBuffer := Some (10 * 1024 * 1024)%N |} ;;
    let '(stdout, stderr) := out in
    _ <- (if truthy stderr && negb (String.eqb (trim stderr) "")
          then console_log (trim stderr) else ret tt) ;;
    ret stdout.

  (** [loadDocument(raw, fileHint)] returns [{ data, format }]; [fileHint]
      is [None] when the caller leaves it out. *)
Definition loadDocument (raw : string) (fileHint : option string) : M (Json * string) :=
    let trimmed := trim raw in
    let isJson :=
      match fileHint with
      | None => false
      | Some h => truthy h && endsWith h ".json"
      end || startsWith trimmed "{" in
    if isJson then
      data <- lift (JSON_parse w raw) ;;
      ret (data, "json")
    else
      yaml <- ensureModule "js-yaml" "4.1.0" ;;
      data <- lift (load yaml raw) ;;
      ret (data, "yaml").

  (** The serialized body of a request; [undefined] sends no body. *)
Definition uploadDocument (document : Json) (token : string) : M string :=
    response <- fetch w
      {| req_method := POST;
         req_url := "https://client.apimetrics.io/api/2/import";
         req_headers := [("Content-Type", "application/json");
                         ("Authorization", "Bearer " +:+ token)];
         req_body := JSON_stringify w document |} ;;
    if negb (ok response)
    then
      let body := body response in
      throw ("Upload failed: " +:+ show_number (status response) +:+ " "
             +:+ statusText response +:+ LF +:+ body)
    else ret (body response).

  (** [ajv.errorsText(errors, { separator })], a method of the Ajv library
      (ajv 8, [lib/core.ts]): ["No errors"] for no error, else every error
      as [`${dataVar}${e.instancePath} ${e.message}`], [dataVar] left at its
      default ["data"], joined by the separator. *)
Definition errorsText (errors : list ErrorObject) (separator : string) : string :=
    match errors with
    | [] => "No errors"
    | _ => join separator
             (map (fun e => "data" +:+ instancePath e +:+ " " +:+ message e) errors)
    end.

  (** [run()], lines 171-207 of [src/index.js] and 251-287 of
      [dist/index.js]: the same text, [validateSchema] being each file's own. *)
Section Run.
Variable validateSchema : Json -> string -> M unit.

Definition run : M unit :=
      fileInput <- lift (getInput "file" false) ;;
      templateInput <- lift (getInput "template" false) ;;
      valuesInput <- lift (getInput "template_values" false) ;;
      token <- lift (getInput "token" true) ;;
      validate_schema <- lift (getInput "validate_schema" false) ;;
      let validate := parseBoolean validate_schema true in
      schema_url <- lift (getInput "schema_url" false) ;;
      let schemaUrl :=
        or_else schema_url "https://client.apimetrics.io/api/2/import/schema.json" in
      ytt_version <- lift (getInput "ytt_version" false) ;;
      let yttVersion := or_else ytt_version "v0.48.0" in
      yttArgs <- lift (getInput "ytt_args" false) ;;
      if negb (truthy templateInput) && negb (truthy fileInput)
      then throw "Provide either 'file' or 'template'."
      else
        acquired <-
          (if truthy templateInput
           then rawContent <- renderWithYtt templateInput valuesInput yttArgs yttVersion ;;
                ret (rawContent, templateInput)
           else rawContent <- readFile w fileInput ;;
                ret (rawContent, fileInput)) ;;
        let '(rawContent, sourceHint) := acquired in
        loaded <- loadDocument rawContent (Some sourceHint) ;;
        let data := fst loaded in
        _ <- (if validate then validateSchema data schemaUrl else ret tt) ;;
        resultText <- uploadDocument data token ;;
        if truthy resultText && negb (String.eqb (trim resultText) "")
        then console_log (trim resultText)
        else console_log "Upload complete.".

    (** [run().catch(...)]: the trace of the whole process and its exit
        code.  [console.error] is given the message, or the error object
        itself ([None]) when the message is empty. *)
Definition main : Trace * N :=
      match run [] with
      | (tr, Ok _) => (tr, 0%N)
      | (tr, Throw msg) => (tr ++ [EvError (if truthy msg then Some msg else None)], 1%N)
      end.

End Run.

End Shared.
End Common.
Import Common.

(** ** [src/index.js] *)

Module Src.
Section Pipeline.
Variable w : World.

Definition validateSchema (document : Json) (schemaUrl : string) : M unit :=
      response <- fetch w (get_request schemaUrl) ;;
      if negb (ok response)
      then throw ("Failed to fetch schema: " +:+ show_number (status response)
                  +:+ " " +:+ statusText response)
      else
        schema <- lift (JSON_parse w (body response)) ;;
        Ajv <- ensureModule w "ajv" "8.12.0" ;;
        addFormats <- ensureModule w "ajv-formats" "2.1.1" ;;
        ajv <- lift (construct Ajv {| allErrors := true; strict := false |}) ;;
        ajv <- lift (call addFormats ajv) ;;
        validate <- lift (compile ajv schema) ;;
        let '(valid, errors) := validate document in
        if negb valid
        then
          let details := errorsText errors LF in
          throw ("Schema validation failed:" +:+ LF +:+ details)
        else ret tt.

Definition run : M unit := Common.run w validateSchema.
Definition main : Trace * N := Common.main w validateSchema.

End Pipeline.
End Src.

(** ** [dist/index.js] *)

Module Dist.
Section Pipeline.
Variable w : World.

Definition validateSchema (document : Json) (schemaUrl : string) : M unit :=
      response <- fetch w (get_request schemaUrl) ;;
      if negb (ok response)
      then throw ("Failed to fetch schema: " +:+ show_number (status response)
                  +:+ " " +:+ statusText response)
      else
        schema <- lift (JSON_parse w (body response)) ;;
        AjvDraft04 <- ensureModule w "ajv-draft-04" "1.0.0" ;;
        addFormats <- ensureModule w "ajv-formats" "2.1.1" ;;
        ajv <- lift (construct AjvDraft04 {| allErrors := true; strict := false |}) ;;
        ajv <- lift (call addFormats ajv) ;;
        validate <- lift (compile ajv schema) ;;
        let '(valid, errors) := validate document in
        if negb valid
        then
          let details := errorsText errors LF in
          throw ("Schema validation failed:" +:+ LF +:+ details)
        else ret tt.

Definition run : M unit := Common.run w validateSchema.
Definition main : Trace * N := Common.main w validateSchema.

End Pipeline.
End Dist.

(** ** Sample worlds

    Concrete environments on which the definitions are run: a Linux x64
    runner with no [ytt] in the working directory, the four packages
    installed, the schema and import endpoints answering 200. *)

Module Sample.

Definition dq : string := String (ascii_of_nat 34) EmptyString.
Definition quoted (s : string) : string := dq +:+ s +:+ dq.

  (** [{"name":"demo"}] *)
Definition doc_text : string := "{" +:+ quoted "name" +:+ ":" +:+ quoted "demo" +:+ "}".
Definition doc_value : Json := JObject [("name", JString "demo")].

  (** [{"$schema":"http://json-schema.org/draft-04/schema#","type":"object"}] *)
Definition schema_text : string :=
    "{" +:+ quoted "$schema" +:+ ":" +:+ quoted "http://json-schema.org/draft-04/schema#"
    +:+ "," +:+ quoted "type" +:+ ":" +:+ quoted "object" +:+ "}".
Definition schema_value : Json :=
    JObject [("$schema", JString "http://json-schema.org/draft-04/schema#");
             ("type", JString "object")].

  (** [{"type":"object"}], a schema that names no draft, served from
      [plain_schema_url]. *)
Definition plain_schema_text : string := "{" +:+ quoted "type" +:+ ":" +:+ quoted "object" +:+ "}".
Definition plain_schema_value : Json := JObject [("type", JString "object")].
Definition plain_schema_url : string := "https://example.com/schema.json".

  (** [{"name":1,"kind":2}], a document with two members that are no strings. *)
Definition bad_text : string := "{" +:+ quoted "name" +:+ ":1," +:+ quoted "kind" +:+ ":2}".
Definition bad_value : Json := JObject [("name", JNumber 1%float); ("kind", JNumber 2%float)].

Definition parse (text : string) : result Json :=
    if String.eqb text doc_text then Ok doc_value
    else if String.eqb text schema_text then Ok schema_value
    else if String.eqb text plain_schema_text then Ok plain_schema_value
    else if String.eqb text bad_text then Ok bad_value
    else Throw "Unexpected token in JSON".

Definition stringify (v : Json) : option string :=
    match v with
    | JUndefined => None
    | JObject [(k, JString s)] => Some ("{" +:+ quoted k +:+ ":" +:+ quoted s +:+ "}")
    | _ => Some "null"
    end.

Definition default_schema_url : string :=
    "https://client.apimetrics.io/api/2/import/schema.json".
Definition default_endpoint : string :=
    "https://client.apimetrics.io/api/2/import".

Definition answer (req : Request) : result Response :=
    match req_method req with
    | GET =>
        if String.eqb (req_url req) default_schema_url
        then Ok {| status := 200; statusText := "OK"; body := schema_text |}
        else if String.eqb (req_url req) plain_schema_url
        then Ok {| status := 200; statusText := "OK"; body := plain_schema_text |}
        else Ok {| status := 404; statusText := "Not Found"; body := "" |}
    | POST => Ok {| status := 200; statusText := "OK"; body := "imported" |}
    end.

Definition unfit {A} (what : string) : result A := Throw (what +:+ " is not a function").

  (** A validator class whose instances report what [verdict] says, after
      compiling any schema [compiles] lets through. *)
Definition verdict_function (verdict : Json -> list ErrorObject) : ValidateFunction :=
    fun document =>
      (match verdict document with [] => true | _ => false end, verdict document).

Definition instance (compiles : Json -> result unit) (verdict : Json -> list ErrorObject)
    : AjvInstance :=
    {| compile := fun schema =>
         match compiles schema with
         | Ok _ => Ok (verdict_function verdict)
         | Throw e => Throw e
         end |}.

Definition validator (compiles : Json -> result unit) (verdict : Json -> list ErrorObject)
    : NodeModule :=
    {| construct := fun _ => Ok (instance compiles verdict);
       call := fun _ => unfit "module";
       load := fun _ => unfit "load" |}.

  (** What the sample validators report: a document that is no object, or
      else every member of it that is no string, in the order of the members. *)
Definition violations (v : Json) : list ErrorObject :=
    match v with
    | JObject members =>
        flat_map (fun member =>
                    match snd member with
                    | JString _ => []
                    | _ => [{| instancePath := "/" +:+ fst member;
                               message := "must be string" |}]
                    end) members
    | _ => [{| instancePath := ""; message := "must be object" |}]
    end.

  (** The class of [ajv-draft-04]: compiles the draft-04 schema. *)
Definition ajv_draft04 : NodeModule := validator (fun _ => Ok tt) violations.

  (** The class of [ajv] 8: it has no draft-04 meta-schema, so compiling a
      schema that names one throws. *)
Definition no_draft04 (schema : Json) : result unit :=
    match schema with
    | JObject (("$schema", JString "http://json-schema.org/draft-04/schema#") :: _) =>
        Throw ("no schema with key or ref "
               +:+ quoted "http://json-schema.org/draft-04/schema#")
    | _ => Ok tt
    end.

Definition ajv_default : NodeModule := validator no_draft04 violations.

Definition ajv_formats : NodeModule :=
    {| construct := fun _ => unfit "constructor";
       call := fun ajv => Ok ajv;
       load := fun _ => unfit "load" |}.

Definition js_yaml : NodeModule :=
    {| construct := fun _ => unfit "constructor";
       call := fun _ => unfit "module";
       load := fun raw =>
         if String.eqb (trim raw) "name: demo" then Ok doc_value
         else if String.eqb (trim raw) "" then Ok JUndefined
         else Ok (JString (trim raw)) |}.

Definition installed (id : string) : result NodeModule :=
    if String.eqb id "ajv" then Ok ajv_default
    else if String.eqb id "ajv-draft-04" then Ok ajv_draft04
    else if String.eqb id "ajv-formats" then Ok ajv_formats
    else if String.eqb id "js-yaml" then Ok js_yaml
    else Throw ("Cannot find module '" +:+ id +:+ "'").

Definition files (p : string) : result string :=
    if String.eqb p "doc.json" then Ok doc_text
    else if String.eqb p "doc.yaml" then Ok "name: demo"
    else if String.eqb p "bad.json" then Ok bad_text
    else Throw ("ENOENT: no such file or directory, open '" +:+ p +:+ "'").

  (** The runner, for a given environment, platform and architecture. *)
Definition runner (vars : gmap string string) (os_platform os_arch : string) : World :=
    {| env := vars;
       platform := os_platform;
       arch := os_arch;
       tmpdir := "/tmp";
       path_join := join "/";
       path_resolve := fun p => "/home/runner/work/" +:+ p;
       JSON_parse := parse;
       JSON_stringify := stringify;
       fs_access := fun _ _ => false;
       fs_mkdtemp := fun _ prefix => Ok (prefix +:+ "a1b2c3");
       fs_readFile := fun _ p => files p;
       fs_writeFile := fun _ _ _ => Ok tt;
       fs_chmod := fun _ _ _ => Ok tt;
       net_fetch := fun _ req => answer req;
       proc_execFile := fun _ file _ _ => Throw ("spawn " +:+ file +:+ " ENOENT");
       node_require := fun _ id => installed id |}.

Definition linux (vars : gmap string string) : World := runner vars "linux" "x64".

Definition vars_of (l : list (string * string)) : gmap string string := list_to_map l.

  (** Four configurations of the Linux runner. [plain]: a file and a token,
      the schema the default one, of draft-04. [validated] and [rejected]:
      the schema that names no draft, for a document that conforms and for
      one that does not. [redirected]: validation off, and an [endpoint]
      input as the README describes it. *)
Definition plain : World :=
    linux (vars_of [("INPUT_FILE", "doc.json"); ("INPUT_TOKEN", "t0ken")]).
Definition validated : World :=
    linux (vars_of [("INPUT_FILE", "doc.json"); ("INPUT_TOKEN", "t0ken");
                    ("INPUT_SCHEMA_URL", "https://example.com/schema.json")]).
Definition rejected : World :=
    linux (vars_of [("INPUT_FILE", "bad.json"); ("INPUT_TOKEN", "t0ken");
                    ("INPUT_SCHEMA_URL", "https://example.com/schema.json")]).
Definition redirected : World :=
    linux (vars_of [("INPUT_FILE", "doc.json"); ("INPUT_TOKEN", "t0ken");
                    ("INPUT_VALIDATE_SCHEMA", "false");
                    ("INPUT_ENDPOINT", "https://staging.example.com/import")]).

  (** A runner with nothing installed: [js-yaml] is found only where npm
      has put it, once npm has run; the [ytt] release can be downloaded, and
      [ytt], local (when [local_ytt]) or downloaded, renders the sample
      document and warns on its error stream. *)
Definition npm_ran (tr : Trace) : bool :=
    existsb (fun e => match e with
                      | EvExecFile file _ _ => String.eqb file "npm"
                      | _ => false
                      end) tr.

Definition ytt_url : string :=
    "https://github.com/carvel-dev/ytt/releases/download/v0.48.0/ytt-linux-amd64".

Definition bare (vars : gmap string string) (local_ytt : bool) : World :=
    {| env := vars;
       platform := "linux";
       arch := "x64";
       tmpdir := "/tmp";
       path_join := join "/";
       path_resolve := fun p => "/home/runner/work/" +:+ p;
       JSON_parse := parse;
       JSON_stringify := stringify;
       fs_access := fun _ p => local_ytt && String.eqb p "ytt";
       fs_mkdtemp := fun _ prefix => Ok (prefix +:+ "a1b2c3");
       fs_readFile := fun _ p => files p;
       fs_writeFile := fun _ _ _ => Ok tt;
       fs_chmod := fun _ _ _ => Ok tt;
       net_fetch := fun _ req =>
         if String.eqb (req_url req) ytt_url
         then Ok {| status := 200; statusText := "OK"; body := "#!ytt" |}
         else answer req;
       proc_execFile := fun _ file _ _ =>
         if String.eqb file "npm" then Ok ("", "")
         else if String.eqb file "/home/runner/work/ytt"
                 || String.eqb file "/tmp/apim-ytt-a1b2c3/ytt-linux-amd64"
         then Ok ("name: demo" +:+ LF, " warning: unused value" +:+ LF)
         else Throw ("spawn " +:+ file +:+ " ENOENT");
       node_require := fun tr id =>
         if npm_ran tr && String.eqb id "/tmp/apim-action-a1b2c3/node_modules/js-yaml"
         then Ok js_yaml
         else if String.eqb id "js-yaml"
         then Throw "Cannot find module 'js-yaml'"
         else installed id |}.

  (** The Linux runner before a server that checks the token. *)
Definition checked (req : Request) : result Response :=
    match req_method req with
    | POST =>
        if existsb (fun h => String.eqb (fst h) "Authorization"
                             && String.eqb (snd h) "Bearer t0ken") (req_headers req)
        then Ok {| status := 200; statusText := "OK"; body := "imported" |}
        else Ok {| status := 401; statusText := "Unauthorized"; body := "bad token" |}
    | GET => answer req
    end.

Definition guarded (vars : gmap string string) : World :=
    {| env := vars;
       platform := "linux";
       arch := "x64";
       tmpdir := "/tmp";
       path_join := join "/";
       path_resolve := fun p => "/home/runner/work/" +:+ p;
       JSON_parse := parse;
       JSON_stringify := stringify;
       fs_access := fun _ _ => false;
       fs_mkdtemp := fun _ prefix => Ok (prefix +:+ "a1b2c3");
       fs_readFile := fun _ p => files p;
       fs_writeFile := fun _ _ _ => Ok tt;
       fs_chmod := fun _ _ _ => Ok tt;
       net_fetch := fun _ req => checked req;
       proc_execFile := fun _ file _ _ => Throw ("spawn " +:+ file +:+ " ENOENT");
       node_require := fun _ id => installed id |}.

End Sample.


(** ** The vocabulary of the specification

    What the specification's words mean, said without the program's own
    functions, so that each theorem compares the two. *)

Module Spec.

  (** An ASCII letter. *)
Definition letter (c : ascii) : Prop :=
    (65 <= code c <= 90 \/ 97 <= code c <= 122)%nat.

  (** Two units that are the same up to the case of a letter. *)
Definition same_letter (a b : ascii) : Prop :=
    a = b \/
    (letter a /\ letter b /\ (code a + 32 = code b \/ code b + 32 = code a)%nat).

  (** Two strings compared case-insensitively. *)
Inductive equal_ignoring_case : string -> string -> Prop :=
  | eic_nil : equal_ignoring_case EmptyString EmptyString
  | eic_cons a b s t :
      same_letter a b -> equal_ignoring_case s t ->
      equal_ignoring_case (String a s) (String b t).

  (** The literals that mean true. *)
Definition true_literals : list string := ["1"; "true"; "yes"; "on"].

  (** Empty or white space only. *)
Inductive blank : string -> Prop :=
  | blank_nil : blank EmptyString
  | blank_cons c s : is_space c = true -> blank s -> blank (String c s).




  (** The platforms the release has a binary for. *)
Definition supported_os (p : string) : Prop := p = "darwin" \/ p = "linux".
Definition supported_arch (a : string) : Prop := a = "x64" \/ a = "arm64".

  (** An upload: a POST request.  A download: any request. *)
Definition is_upload (e : Event) : bool :=
    match e with
    | EvFetch req => match req_method req with POST => true | GET => false end
    | _ => false
    end.
Definition is_request (e : Event) : bool :=
    match e with EvFetch _ => true | _ => false end.




  (** The value the environment holds for an input, if any. *)
Definition configured (w : World) (name : string) : option string :=
    env w !! ("INPUT_" +:+ toUpperCase (replace_spaces name)).

  (** The package that holds the Ajv class for JSON Schema draft-04; the
      class of the package [ajv] itself is the draft-07 one. *)
Definition draft04_package : string := "ajv-draft-04".

  (** The endpoint of the README, used when the input is not given. *)
Definition default_endpoint : string := "https://client.apimetrics.io/api/2/import".

End Spec.
Import Spec.

(** ** Vocabulary of the proofs *)

(** Every event a computation adds to the trace satisfies [P]; what was in
    the trace before stays, in place. *)
Definition emits {A} (P : Event -> Prop) (m : M A) : Prop :=
  forall tr, exists added, trace_of (m tr) = tr ++ added /\ Forall P added.

Definition not_upload (e : Event) : Prop := is_upload e = false.
Definition not_request (e : Event) : Prop := is_request e = false.

(** What [getInput(name)] returns for an input that is not required. *)
Definition given (w : World) (name : string) : string :=
  default "" (configured w name).

(** The settings [run] derives from its inputs. *)
Definition validation_enabled (w : World) : bool :=
  parseBoolean (given w "validate_schema") true.
Definition schema_url_of (w : World) : string :=
  or_else (given w "schema_url") "https://client.apimetrics.io/api/2/import/schema.json".
Definition ytt_version_of (w : World) : string :=
  or_else (given w "ytt_version") "v0.48.0".


(** The request [uploadDocument(document, token)] makes. *)
Definition upload_request (w : World) (document : Json) (token : string) : Request :=
  {| req_method := POST;
     req_url := "https://client.apimetrics.io/api/2/import";
     req_headers := [("Content-Type", "application/json");
                     ("Authorization", "Bearer " +:+ token)];
     req_body := JSON_stringify w document |}.


(** A string with no capital letter in it. *)
Fixpoint no_capital (s : string) : bool :=
    match s with
    | EmptyString => true
    | String c r => negb (is_upper c) && no_capital r
    end.

(** ** Strings *)

Section StringFacts.

Lemma code_bounded c : (code c < 256)%nat.
  Proof. apply nat_ascii_bounded. Qed.

Lemma code_inj a b : code a = code b -> a = b.
  Proof.
    unfold code. intros E. rewrite <- (ascii_nat_embedding a), <- (ascii_nat_embedding b).
    now rewrite E.
  Qed.

Lemma is_upper_true c : is_upper c = true <-> (65 <= code c <= 90)%nat.
  Proof. unfold is_upper. rewrite andb_true_iff, !Nat.leb_le. tauto. Qed.

Lemma is_upper_false c : is_upper c = false <-> ~ (65 <= code c <= 90)%nat.
  Proof. rewrite <- is_upper_true. destruct (is_upper c); intuition congruence. Qed.

Lemma code_lower_unit c :
    is_upper c = true -> code (lower_unit c) = (code c + 32)%nat.
  Proof.
    intros U. unfold lower_unit. rewrite U. apply is_upper_true in U.
    unfold code in *. rewrite nat_ascii_embedding; lia.
  Qed.

  (** Lower-casing [a] gives [b], a unit that is no capital, exactly when
      the two are the same letter. *)
Lemma lower_unit_same_letter a b :
    is_upper b = false -> (lower_unit a = b <-> same_letter a b).
  Proof.
    intros Hb. apply is_upper_false in Hb.
    unfold same_letter, letter.
    destruct (is_upper a) eqn:Ha.
    - pose proof (code_lower_unit a Ha) as E. apply is_upper_true in Ha. split.
      + intros <-. right. revert Hb Ha E.
        generalize (code (lower_unit a)) (code a). intros; lia.
      + intros [-> | (_ & Lb & [H | H])].
        * tauto.
        * apply code_inj. congruence.
        * revert Hb Ha Lb H. generalize (code b) (code a). intros; lia.
    - unfold lower_unit. rewrite Ha. apply is_upper_false in Ha. split.
      + now left.
      + intros [-> | (La & Lb & H)]; [reflexivity |].
        revert Hb Ha La Lb H. generalize (code b) (code a). intros; lia.
  Qed.

Lemma toLowerCase_equal_ignoring_case t :
    no_capital t = true ->
    forall v, toLowerCase v = t <-> equal_ignoring_case v t.
  Proof.
    induction t as [| b t IH]; intros Hc v.
    - destruct v; split; intros H; try constructor; try discriminate; inversion H.
    - simpl in Hc. apply andb_true_iff in Hc as [Hb Ht].
      apply negb_true_iff in Hb.
      destruct v as [| a v].
      + split; intros H; [discriminate | inversion H].
      + change (toLowerCase (String a v))
          with (String (lower_unit a) (toLowerCase v)).
        split.
        * intros H. injection H as Ha Hv. constructor.
          -- now apply lower_unit_same_letter.
          -- now apply IH.
        * intros H. inversion H; subst. f_equal.
          -- now apply lower_unit_same_letter.
          -- now apply IH.
  Qed.

Lemma trimStart_blank s : trimStart s = EmptyString <-> blank s.
  Proof.
    induction s as [| c s IH]; simpl.
    - split; [constructor | reflexivity].
    - destruct (is_space c) eqn:E.
      + rewrite IH. split; [now constructor | intros H; now inversion H].
      + split; [discriminate | intros H; inversion H; congruence].
  Qed.

Lemma trimEnd_blank s : trimEnd s = EmptyString <-> blank s.
  Proof.
    induction s as [| c s IH]; simpl.
    - split; [constructor | reflexivity].
    - destruct (trimEnd s) eqn:T.
      + destruct (is_space c) eqn:E.
        * split; [intros _; constructor; tauto | reflexivity].
        * split; [discriminate | intros H; inversion H; congruence].
      + split; [discriminate |].
        intros H. inversion H; subst. apply IH in H3. discriminate.
  Qed.

Lemma trimStart_head s c r : trimStart s = String c r -> is_space c = false.
  Proof.
    induction s as [| a s IH]; simpl; [discriminate |].
    destruct (is_space a) eqn:E; [exact IH | congruence].
  Qed.

  (** [value.trim() === ""] says that the value is blank. *)
Lemma trim_blank s : trim s = EmptyString <-> blank s.
  Proof.
    unfold trim. split.
    - intros H. apply trimEnd_blank in H. apply trimStart_blank.
      destruct (trimStart s) as [| c r] eqn:T; [reflexivity |].
      apply trimStart_head in T. inversion H; congruence.
    - intros H. apply trimStart_blank in H. now rewrite H.
  Qed.

Lemma eqb_empty s : String.eqb s "" = true <-> s = EmptyString.
  Proof. apply String.eqb_eq. Qed.

End StringFacts.

(** ** Configuration Reader *)

Lemma parseBoolean_nonempty value d :
  value <> EmptyString ->
  parseBoolean value d = existsb (String.eqb (toLowerCase value)) true_literals.
Proof.
  intros H. unfold parseBoolean.
  destruct (String.eqb value "") eqn:E; [| reflexivity].
  apply String.eqb_eq in E. contradiction.
Qed.

Lemma true_literals_no_capital lit : In lit true_literals -> no_capital lit = true.
Proof.
  intros H. simpl in H.
  destruct H as [<- | [<- | [<- | [<- | []]]]]; reflexivity.
Qed.

Lemma true_literal_matches value :
  existsb (String.eqb (toLowerCase value)) true_literals = true <->
  exists lit, In lit true_literals /\ equal_ignoring_case value lit.
Proof.
  rewrite existsb_exists. split.
  - intros (lit & Hin & E). exists lit. split; [exact Hin |].
    apply String.eqb_eq in E.
    now apply toLowerCase_equal_ignoring_case; [apply true_literals_no_capital |].
  - intros (lit & Hin & E). exists lit. split; [exact Hin |].
    apply String.eqb_eq.
    now apply toLowerCase_equal_ignoring_case; [apply true_literals_no_capital |].
Qed.

(** C5: [parseBoolean(value, default)] gives the default for the empty
    string; for any other value it is true exactly when the value is one
    of ["1"], ["true"], ["yes"], ["on"] compared case-insensitively, and
    false for every other value. *)
Theorem parseBoolean_spec (value : string) (defaultValue : bool) :
  (value = EmptyString -> parseBoolean value defaultValue = defaultValue) /\
  (value <> EmptyString ->
   (parseBoolean value defaultValue = true <->
    exists lit, In lit true_literals /\ equal_ignoring_case value lit)) /\
  (value <> EmptyString ->
   (forall lit, In lit true_literals -> ~ equal_ignoring_case value lit) ->
   parseBoolean value defaultValue = false).
Proof.
  split; [| split].
  - intros ->. reflexivity.
  - intros H. rewrite (parseBoolean_nonempty _ _ H). apply true_literal_matches.
  - intros H Hno. rewrite (parseBoolean_nonempty _ _ H).
    apply not_true_is_false. intros E.
    apply true_literal_matches in E as (lit & Hin & Heq).
    exact (Hno lit Hin Heq).
Qed.

Example parseBoolean_samples :
  parseBoolean "TRUE" false = true /\ parseBoolean "Yes" false = true /\
  parseBoolean "oN" false = true /\ parseBoolean "1" false = true /\
  parseBoolean "false" true = false /\ parseBoolean "0" true = false /\
  parseBoolean " true" true = false /\
  parseBoolean "" true = true /\ parseBoolean "" false = false.
Proof. repeat split. Qed.

Lemma same_letter_refl c : same_letter c c.
Proof. now left. Qed.

Lemma equal_ignoring_case_YES : equal_ignoring_case "YeS" "yes".
Proof.
  apply eic_cons.
  - right. unfold letter. vm_compute. lia.
  - apply eic_cons; [apply same_letter_refl |].
    apply eic_cons; [| apply eic_nil].
    right. unfold letter. vm_compute. lia.
Qed.

Lemma parseBoolean_spec_witness :
  parseBoolean "" false = false /\ parseBoolean "YeS" false = true /\
  parseBoolean "no" true = false.
Proof.
  destruct (parseBoolean_spec "" false) as (H1 & _ & _).
  destruct (parseBoolean_spec "YeS" false) as (_ & H2 & _).
  destruct (parseBoolean_spec "no" true) as (_ & _ & H3).
  split; [apply H1; reflexivity |].
  split.
  - apply H2; [discriminate |].
    exists "yes". split; [simpl; tauto | exact equal_ignoring_case_YES].
  - reflexivity.
Defined.

Lemma getInput_required_throws w name :
  getInput w name true = Throw ("Missing required input: " +:+ name) <->
  (env w !! input_key name = None \/
   exists v, env w !! input_key name = Some v /\ blank v).
Proof.
  unfold getInput. simpl.
  destruct (env w !! input_key name) as [v |] eqn:E.
  - destruct (negb (truthy v) || String.eqb (trim v) "") eqn:B.
    + split; [| reflexivity]. intros _. right. exists v. split; [reflexivity |].
      apply orb_true_iff in B as [B | B].
      * unfold truthy in B. apply negb_true_iff, negb_false_iff in B.
        apply String.eqb_eq in B. subst. constructor.
      * apply String.eqb_eq in B. now apply trim_blank.
    + split; [discriminate |].
      intros [H | (v' & H & Hb)]; [discriminate |].
      injection H as <-. apply trim_blank in Hb.
      apply orb_false_iff in B as [_ B]. rewrite Hb in B. discriminate.
  - split; [| reflexivity]. intros _. now left.
Qed.

(** C6: with [required: true], [getInput(name)] throws the error
    ["Missing required input: <name>"] whenever the environment has no
    value under the input's key or has a blank one there; when the input
    is not required and absent, the call returns the empty string. *)
Theorem getInput_missing (w : World) (name : string) :
  ((env w !! input_key name = None \/
    exists v, env w !! input_key name = Some v /\ blank v) ->
   getInput w name true = Throw ("Missing required input: " +:+ name)) /\
  (env w !! input_key name = None -> getInput w name false = Ok EmptyString).
Proof.
  split.
  - apply getInput_required_throws.
  - intros H. unfold getInput. rewrite H. reflexivity.
Qed.


Lemma blank_two_spaces : blank "  ".
Proof. apply blank_cons; [reflexivity |]. apply blank_cons; [reflexivity | apply blank_nil]. Qed.

Lemma getInput_missing_witness :
  getInput (Sample.linux (Sample.vars_of [("INPUT_TOKEN", "  ")])) "token" true
    = Throw "Missing required input: token" /\
  getInput (Sample.linux (Sample.vars_of [("INPUT_TOKEN", "  ")])) "ytt args" false
    = Ok EmptyString.
Proof.
  split.
  - apply (getInput_missing (Sample.linux (Sample.vars_of [("INPUT_TOKEN", "  ")])) "token").
    right. exists "  ". split; [vm_compute; reflexivity | exact blank_two_spaces].
  - apply (getInput_missing (Sample.linux (Sample.vars_of [("INPUT_TOKEN", "  ")])) "ytt args").
    vm_compute. reflexivity.
Defined.

(** ** Document Loader *)


Lemma append_cons x (a b : string) : String x a +:+ b = String x (a +:+ b).
Proof. reflexivity. Qed.

Lemma append_assoc (a b c : string) : (a +:+ b) +:+ c = a +:+ b +:+ c.
Proof.
  induction a as [| x a IH]; [reflexivity |].
  rewrite !append_cons. f_equal. exact IH.
Qed.

Lemma append_empty_r (a : string) : a +:+ "" = a.
Proof.
  induction a as [| x a IH]; [reflexivity |].
  rewrite append_cons. f_equal. exact IH.
Qed.




















(** ** Tool Provisioner *)

Lemma supported_os_dec p :
  (String.eqb p "darwin" || String.eqb p "linux" = true) <-> supported_os p.
Proof.
  unfold supported_os. rewrite orb_true_iff, !String.eqb_eq. tauto.
Qed.

Lemma supported_arch_dec a :
  (String.eqb a "x64" || String.eqb a "arm64" = true) <-> supported_arch a.
Proof.
  unfold supported_arch. rewrite orb_true_iff, !String.eqb_eq. tauto.
Qed.

Lemma resolveYttAsset_unsupported_os w version :
  ~ supported_os (platform w) ->
  resolveYttAsset w version = Throw ("Unsupported OS for ytt: " +:+ platform w).
Proof.
  intros N. unfold resolveYttAsset.
  destruct (String.eqb (platform w) "darwin") eqn:D.
  - exfalso. apply N. left. now apply String.eqb_eq.
  - destruct (String.eqb (platform w) "linux") eqn:L; [| reflexivity].
    exfalso. apply N. right. now apply String.eqb_eq.
Qed.

Lemma resolveYttAsset_unsupported_arch w version :
  supported_os (platform w) -> ~ supported_arch (arch w) ->
  resolveYttAsset w version = Throw ("Unsupported architecture for ytt: " +:+ arch w).
Proof.
  intros S N. unfold resolveYttAsset.
  assert (X : String.eqb (arch w) "x64" = false).
  { apply not_true_is_false. intros E. apply N. left. now apply String.eqb_eq. }
  assert (A : String.eqb (arch w) "arm64" = false).
  { apply not_true_is_false. intros E. apply N. right. now apply String.eqb_eq. }
  rewrite X, A. destruct S as [-> | ->]; reflexivity.
Qed.

Lemma resolveYttAsset_supported w version :
  supported_os (platform w) -> supported_arch (arch w) ->
  exists asset, resolveYttAsset w version = Ok asset.
Proof.
  intros [P | P] [A | A]; unfold resolveYttAsset; rewrite P, A; simpl; eauto.
Qed.

Lemma ensureYtt_unsupported w version tr msg :
  resolveYttAsset w version = Throw msg ->
  trace_of (ensureYtt w version tr) = tr ++ [EvAccess "ytt"] /\
  (fs_access w tr "ytt" = false ->
   ensureYtt w version tr = (tr ++ [EvAccess "ytt"], Throw msg)).
Proof.
  intros R. unfold ensureYtt, fileExists, accessSync, bind, effect, lift, ret.
  rewrite R. destruct (fs_access w tr "ytt"); split; try reflexivity; discriminate.
Qed.

(** C7: [resolveYttAsset] returns an asset exactly on the two supported
    operating systems and the two supported architectures; any other
    operating system, and then any other architecture, makes it throw the
    error that names it; and when it throws, [ensureYtt] has looked for a
    local [ytt] and done nothing else: no directory made, no download. *)
Theorem resolveYttAsset_platforms (w : World) (version : string) :
  ((exists asset, resolveYttAsset w version = Ok asset) <->
   supported_os (platform w) /\ supported_arch (arch w)) /\
  (~ supported_os (platform w) ->
   resolveYttAsset w version = Throw ("Unsupported OS for ytt: " +:+ platform w)) /\
  (supported_os (platform w) -> ~ supported_arch (arch w) ->
   resolveYttAsset w version
   = Throw ("Unsupported architecture for ytt: " +:+ arch w)) /\
  (forall tr, ~ (supported_os (platform w) /\ supported_arch (arch w)) ->
     trace_of (ensureYtt w version tr) = tr ++ [EvAccess "ytt"] /\
     (fs_access w tr "ytt" = false ->
      exists msg, outcome_of (ensureYtt w version tr) = Throw msg)).
Proof.
  assert (U : ~ (supported_os (platform w) /\ supported_arch (arch w)) ->
              exists msg, resolveYttAsset w version = Throw msg).
  { intros N.
    destruct (String.eqb (platform w) "darwin" || String.eqb (platform w) "linux") eqn:P.
    - apply supported_os_dec in P.
      exists ("Unsupported architecture for ytt: " +:+ arch w).
      apply resolveYttAsset_unsupported_arch; tauto.
    - exists ("Unsupported OS for ytt: " +:+ platform w).
      apply resolveYttAsset_unsupported_os. rewrite <- supported_os_dec. congruence. }
  split; [| split; [| split]].
  - split.
    + intros (asset & R).
      destruct (String.eqb (platform w) "darwin" || String.eqb (platform w) "linux") eqn:P.
      * apply supported_os_dec in P. split; [exact P |].
        destruct (String.eqb (arch w) "x64" || String.eqb (arch w) "arm64") eqn:A.
        -- now apply supported_arch_dec.
        -- rewrite resolveYttAsset_unsupported_arch in R; [discriminate | exact P |].
           rewrite <- supported_arch_dec. congruence.
      * rewrite resolveYttAsset_unsupported_os in R; [discriminate |].
        rewrite <- supported_os_dec. congruence.
    + intros [P A]. now apply resolveYttAsset_supported.
  - apply resolveYttAsset_unsupported_os.
  - apply resolveYttAsset_unsupported_arch.
  - intros tr N. destruct (U N) as (msg & R).
    destruct (ensureYtt_unsupported w version tr msg R) as [T O].
    split; [exact T |]. intros F. exists msg. now rewrite (O F).
Qed.

Lemma win32_unsupported : ~ supported_os "win32".
Proof. intros [H | H]; discriminate. Qed.

Lemma resolveYttAsset_platforms_witness :
  resolveYttAsset (Sample.runner ∅ "win32" "x64") "v0.48.0"
    = Throw "Unsupported OS for ytt: win32" /\
  trace_of (ensureYtt (Sample.runner ∅ "win32" "x64") "v0.48.0" []) = [EvAccess "ytt"] /\
  (exists asset, resolveYttAsset (Sample.linux ∅) "v0.48.0" = Ok asset).
Proof.
  destruct (resolveYttAsset_platforms (Sample.runner ∅ "win32" "x64") "v0.48.0")
    as (_ & Hos & _ & Hno).
  destruct (resolveYttAsset_platforms (Sample.linux ∅) "v0.48.0") as (Hyes & _).
  split; [exact (Hos win32_unsupported) |]. split.
  - apply (Hno []). intros [H _]. exact (win32_unsupported H).
  - apply Hyes. split; [right | left]; reflexivity.
Defined.

(** ** The pipeline *)

Lemma configured_key w name : configured w name = env w !! input_key name.
Proof. reflexivity. Qed.

(** An input that is not required never throws: what is configured, or the
    empty string. *)
Lemma getInput_optional w name :
  getInput w name false = Ok (given w name).
Proof.
  unfold getInput, given. rewrite <- configured_key. simpl.
  destruct (configured w name) as [v |]; [| reflexivity].
  simpl. unfold or_else, truthy. destruct (String.eqb v "") eqn:E; [| reflexivity].
  apply String.eqb_eq in E. now subst.
Qed.

Lemma getInput_token_missing w :
  (configured w "token" = None \/
   exists v, configured w "token" = Some v /\ blank v) ->
  getInput w "token" true = Throw "Missing required input: token".
Proof.
  intros H. apply (getInput_required_throws w "token"). exact H.
Qed.

(** C10: with no token, or a blank one, [run] throws
    ["Missing required input: token"] before it has touched anything, and
    whatever the other inputs are: with neither [file] nor [template] too. *)
Theorem run_token_first (w : World) (validateSchema : Json -> string -> M unit)
    (tr : Trace) :
  (configured w "token" = None \/
   exists v, configured w "token" = Some v /\ blank v) ->
  run w validateSchema tr = (tr, Throw "Missing required input: token").
Proof.
  intros H. unfold run, bind, lift.
  rewrite !getInput_optional. now rewrite (getInput_token_missing w H).
Qed.

Lemma run_token_first_witness :
  Src.run (Sample.linux ∅) [] = ([], Throw "Missing required input: token") /\
  Dist.run (Sample.linux (Sample.vars_of [("INPUT_FILE", "doc.json"); ("INPUT_TOKEN", "  ")])) []
  = ([], Throw "Missing required input: token").
Proof.
  split.
  - apply (run_token_first (Sample.linux ∅)). left. vm_compute. reflexivity.
  - apply (run_token_first
             (Sample.linux (Sample.vars_of [("INPUT_FILE", "doc.json"); ("INPUT_TOKEN", "  ")]))).
    right. exists "  ". split; [vm_compute; reflexivity | exact blank_two_spaces].
Defined.

(** ** What each function does to the trace *)

Section Emits.
Context {A B : Type} (P : Event -> Prop).

Lemma emits_ret (a : A) : emits P (ret a).
Proof. intros tr. exists []. split; [symmetry; apply app_nil_r | constructor]. Qed.

Lemma emits_throw msg : emits P (@throw A msg).
Proof. intros tr. exists []. split; [symmetry; apply app_nil_r | constructor]. Qed.

Lemma emits_lift (r : result A) : emits P (lift r).
Proof. intros tr. exists []. split; [symmetry; apply app_nil_r | constructor]. Qed.

Lemma emits_effect e (answer : Trace -> result A) : P e -> emits P (effect e answer).
Proof. intros H tr. exists [e]. split; [reflexivity | now repeat constructor]. Qed.

Lemma emits_bind (m : M A) (k : A -> M B) :
  emits P m -> (forall a, emits P (k a)) -> emits P (bind m k).
Proof.
  intros Hm Hk tr. destruct (Hm tr) as (a1 & E1 & F1).
  unfold bind. destruct (m tr) as [tr1 [a | e]]; simpl in E1; subst tr1.
  - destruct (Hk a (tr ++ a1)) as (a2 & E2 & F2).
    exists (a1 ++ a2). split; [now rewrite E2, app_assoc | now apply Forall_app].
  - now exists a1.
Qed.

Lemma emits_try_catch (m handler : M A) :
  emits P m -> emits P handler -> emits P (try_catch m handler).
Proof.
  intros Hm Hh tr. destruct (Hm tr) as (a1 & E1 & F1).
  unfold try_catch. destruct (m tr) as [tr1 [a | e]]; simpl in E1; subst tr1.
  - now exists a1.
  - destruct (Hh (tr ++ a1)) as (a2 & E2 & F2).
    exists (a1 ++ a2). split; [now rewrite E2, app_assoc | now apply Forall_app].
Qed.

Lemma emits_if (b : bool) (m1 m2 : M A) :
  emits P m1 -> emits P m2 -> emits P (if b then m1 else m2).
Proof. now destruct b. Qed.

(** The trace a call returns is the one it was given, and then its events. *)
Lemma emits_run (m : M A) tr tr' r :
  emits P m -> m tr = (tr', r) -> exists added, tr' = tr ++ added /\ Forall P added.
Proof.
  intros Hm E. destruct (Hm tr) as (added & Et & F). rewrite E in Et.
  now exists added.
Qed.

End Emits.

Lemma emits_weaken {A} (P Q : Event -> Prop) (m : M A) :
  (forall e, P e -> Q e) -> emits P m -> emits Q m.
Proof.
  intros PQ Hm tr. destruct (Hm tr) as (added & E & F).
  exists added. split; [exact E |]. eapply Forall_impl; eauto.
Qed.

Lemma not_request_not_upload e : not_request e -> not_upload e.
Proof. destruct e; try reflexivity. discriminate. Qed.

Ltac emits_step :=
  first
    [ apply emits_ret | apply emits_throw | apply emits_lift
    | apply emits_effect; reflexivity
    | apply emits_try_catch
    | apply emits_if
    | apply emits_bind; [| intros ? ] ].

(** [ensureModule] loads and installs; it asks nothing of the network
    itself. *)
Lemma ensureModule_emits w moduleName version :
  emits not_request (ensureModule w moduleName version).
Proof.
  unfold ensureModule, require, mkdtemp, execFileAsync. repeat emits_step.
Qed.

(** [ensureYtt] may download, and never uploads. *)
Lemma ensureYtt_emits w version : emits not_upload (ensureYtt w version).
Proof.
  unfold ensureYtt, fileExists, accessSync, mkdtemp, fetch, writeFile, chmod.
  emits_step; [emits_step |].
  destruct a; [emits_step |]. emits_step; [emits_step |].
  destruct a as [url fileName]. repeat emits_step.
Qed.

Lemma renderWithYtt_emits w templatePath valuesPath yttArgs yttVersion :
  emits not_upload (renderWithYtt w templatePath valuesPath yttArgs yttVersion).
Proof.
  unfold renderWithYtt. emits_step; [apply ensureYtt_emits |].
  unfold execFileAsync, console_log. emits_step; [emits_step |].
  destruct a0 as [stdout stderr]. repeat emits_step.
Qed.

Lemma loadDocument_emits w raw fileHint : emits not_request (loadDocument w raw fileHint).
Proof.
  unfold loadDocument. apply emits_if.
  - repeat emits_step.
  - apply emits_bind; [apply ensureModule_emits | intros yaml; repeat emits_step].
Qed.

(** The validator of either file downloads the schema and loads its
    packages; it never uploads. *)
Lemma Src_validateSchema_emits w document schemaUrl :
  emits not_upload (Src.validateSchema w document schemaUrl).
Proof.
  unfold Src.validateSchema, fetch.
  apply emits_bind; [apply emits_effect; reflexivity | intros response].
  apply emits_if; [apply emits_throw |].
  apply emits_bind; [apply emits_lift | intros schema].
  apply emits_bind; [| intros Ajv].
  { eapply emits_weaken; [apply not_request_not_upload | apply ensureModule_emits]. }
  apply emits_bind; [| intros addFormats].
  { eapply emits_weaken; [apply not_request_not_upload | apply ensureModule_emits]. }
  apply emits_bind; [apply emits_lift | intros ajv].
  apply emits_bind; [apply emits_lift | intros ajv'].
  apply emits_bind; [apply emits_lift | intros validate].
  destruct (validate document) as [valid errors].
  apply emits_if; [apply emits_throw | apply emits_ret].
Qed.

Lemma Dist_validateSchema_emits w document schemaUrl :
  emits not_upload (Dist.validateSchema w document schemaUrl).
Proof.
  unfold Dist.validateSchema, fetch.
  apply emits_bind; [apply emits_effect; reflexivity | intros response].
  apply emits_if; [apply emits_throw |].
  apply emits_bind; [apply emits_lift | intros schema].
  apply emits_bind; [| intros Ajv].
  { eapply emits_weaken; [apply not_request_not_upload | apply ensureModule_emits]. }
  apply emits_bind; [| intros addFormats].
  { eapply emits_weaken; [apply not_request_not_upload | apply ensureModule_emits]. }
  apply emits_bind; [apply emits_lift | intros ajv].
  apply emits_bind; [apply emits_lift | intros ajv'].
  apply emits_bind; [apply emits_lift | intros validate].
  destruct (validate document) as [valid errors].
  apply emits_if; [apply emits_throw | apply emits_ret].
Qed.

(** The validator's first act is the download of the schema. *)
Lemma Src_validateSchema_first w document schemaUrl tr :
  exists rest,
    trace_of (Src.validateSchema w document schemaUrl tr)
    = tr ++ EvFetch (get_request schemaUrl) :: rest /\ Forall not_upload rest.
Proof.
  unfold Src.validateSchema, fetch. unfold bind at 1. unfold effect at 1.
  destruct (net_fetch w tr (get_request schemaUrl)) as [response | e].
  - match goal with
    | |- context [trace_of (?m (tr ++ [?e]))] =>
        assert (H : emits not_upload m)
    end.
    { apply emits_if; [apply emits_throw |].
      apply emits_bind; [apply emits_lift | intros schema].
      apply emits_bind; [| intros Ajv].
      { eapply emits_weaken; [apply not_request_not_upload | apply ensureModule_emits]. }
      apply emits_bind; [| intros addFormats].
      { eapply emits_weaken; [apply not_request_not_upload | apply ensureModule_emits]. }
      apply emits_bind; [apply emits_lift | intros ajv].
      apply emits_bind; [apply emits_lift | intros ajv'].
      apply emits_bind; [apply emits_lift | intros validate].
      destruct (validate document) as [valid errors].
      apply emits_if; [apply emits_throw | apply emits_ret]. }
    destruct (H (tr ++ [EvFetch (get_request schemaUrl)])) as (rest & E & F).
    exists rest. split; [| exact F]. rewrite E. now rewrite <- app_assoc.
  - exists []. split; [reflexivity | constructor].
Qed.

(** ** Uploader *)

(** [uploadDocument] makes one request, the POST, and answers with the body
    of its response, or throws with its status, status text and body. *)
Lemma uploadDocument_run w document token tr :
  uploadDocument w document token tr =
  (tr ++ [EvFetch (upload_request w document token)],
   match net_fetch w tr (upload_request w document token) with
   | Ok response =>
       if ok response then Ok (body response)
       else Throw ("Upload failed: " +:+ show_number (status response) +:+ " "
                   +:+ statusText response +:+ LF +:+ body response)
   | Throw e => Throw e
   end).
Proof.
  unfold uploadDocument, fetch, bind, effect.
  fold (upload_request w document token).
  destruct (net_fetch w tr (upload_request w document token)) as [response | e];
    [| reflexivity].
  destruct (ok response); reflexivity.
Qed.

(** ** The order of the run *)

(** [run], its inputs read: the token first, then the source, then the
    document, the validator if enabled, the upload and the report. *)
Lemma run_unfold w (validateSchema : Json -> string -> M unit) tr :
  run w validateSchema tr =
  match getInput w "token" true with
  | Throw e => (tr, Throw e)
  | Ok token =>
      (if negb (truthy (given w "template")) && negb (truthy (given w "file"))
       then throw "Provide either 'file' or 'template'."
       else
         acquired <-
           (if truthy (given w "template")
            then rawContent <- renderWithYtt w (given w "template")
                                 (given w "template_values") (given w "ytt_args")
                                 (ytt_version_of w) ;;
                 ret (rawContent, given w "template")
            else rawContent <- readFile w (given w "file") ;;
                 ret (rawContent, given w "file")) ;;
         let '(rawContent, sourceHint) := acquired in
         loaded <- loadDocument w rawContent (Some sourceHint) ;;
         let data := fst loaded in
         _ <- (if validation_enabled w then validateSchema data (schema_url_of w)
               else ret tt) ;;
         resultText <- uploadDocument w data token ;;
         if truthy resultText && negb (String.eqb (trim resultText) "")
         then console_log (trim resultText)
         else console_log "Upload complete.") tr
  end.
Proof.
  unfold run. unfold bind at 1 2 3 4 5 6 7 8. unfold lift.
  rewrite !getInput_optional.
  destruct (getInput w "token" true); reflexivity.
Qed.

Lemma bind_run {A B} (m : M A) (k : A -> M B) tr :
  bind m k tr =
  match m tr with
  | (tr', Ok a) => k a tr'
  | (tr', Throw e) => (tr', Throw e)
  end.
Proof. reflexivity. Qed.

(** Getting the raw text, by rendering or by reading, uploads nothing. *)
Lemma acquire_emits w :
  emits not_upload
    (if truthy (given w "template")
     then rawContent <- renderWithYtt w (given w "template")
                          (given w "template_values") (given w "ytt_args")
                          (ytt_version_of w) ;;
          ret (rawContent, given w "template")
     else rawContent <- readFile w (given w "file") ;;
          ret (rawContent, given w "file")).
Proof.
  apply emits_if.
  - apply emits_bind; [apply renderWithYtt_emits | intros raw; apply emits_ret].
  - apply emits_bind; [apply emits_effect; reflexivity | intros raw; apply emits_ret].
Qed.

Lemma report_run resultText tr :
  exists text,
    (if truthy resultText && negb (String.eqb (trim resultText) "")
     then console_log (trim resultText)
     else console_log "Upload complete.") tr = (tr ++ [EvLog text], Ok tt).
Proof.
  destruct (truthy resultText && negb (String.eqb (trim resultText) ""));
    eexists; reflexivity.
Qed.

(** The shape of a run with validation enabled, for a validator that does
    not upload by itself: either the run threw with nothing uploaded, or
    the validator returned and the one upload follows at once, with at most
    the report after it. *)
Lemma run_shape w (validateSchema : Json -> string -> M unit) T r :
  (forall d u, emits not_upload (validateSchema d u)) ->
  validation_enabled w = true ->
  run w validateSchema [] = (T, r) ->
  (Forall not_upload T /\ exists msg, r = Throw msg) \/
  (exists data token tr0 before after,
     validateSchema data (schema_url_of w) tr0 = (before, Ok tt) /\
     Forall not_upload before /\
     T = before ++ EvFetch (upload_request w data token) :: after /\
     Forall not_upload after /\
     (forall msg, r = Throw msg -> after = [])).
Proof.
  intros Hv Hflag E. rewrite run_unfold in E.
  destruct (getInput w "token" true) as [token | e].
  2:{ injection E as <- <-. left. split; [constructor | eauto]. }
  destruct (negb (truthy (given w "template")) && negb (truthy (given w "file"))).
  { injection E as <- <-. left. split; [constructor | eauto]. }
  rewrite bind_run in E.
  pose proof (acquire_emits w) as HA.
  match type of E with
  | context [match ?x with _ => _ end] =>
      destruct x as [t1 [[raw hint] | e]] eqn:E1
  end.
  2:{ injection E as <- <-. left.
      destruct (emits_run _ _ _ _ _ HA E1) as (a1 & -> & F1). split; [exact F1 | eauto]. }
  destruct (emits_run _ _ _ _ _ HA E1) as (a1 & Et1 & F1). simpl in Et1. subst t1.
  rewrite bind_run in E.
  destruct (loadDocument w raw (Some hint) a1) as [t2 [loaded | e]] eqn:E2.
  2:{ injection E as <- <-. left.
      destruct (emits_run _ _ _ _ _ (loadDocument_emits w raw (Some hint)) E2)
        as (a2 & -> & F2).
      split; [| eauto]. apply Forall_app. split; [exact F1 |].
      eapply Forall_impl; [exact F2 | apply not_request_not_upload]. }
  destruct (emits_run _ _ _ _ _ (loadDocument_emits w raw (Some hint)) E2)
    as (a2 & -> & F2).
  assert (F12 : Forall not_upload (a1 ++ a2)).
  { apply Forall_app. split; [exact F1 |].
    eapply Forall_impl; [exact F2 | apply not_request_not_upload]. }
  cbv zeta in E. rewrite Hflag in E. rewrite bind_run in E.
  destruct (validateSchema (fst loaded) (schema_url_of w) (a1 ++ a2))
    as [t3 [[] | e]] eqn:E3.
  2:{ injection E as <- <-. left.
      destruct (emits_run _ _ _ _ _ (Hv _ _) E3) as (a3 & -> & F3).
      split; [| eauto]. apply Forall_app. now split. }
  destruct (emits_run _ _ _ _ _ (Hv _ _) E3) as (a3 & Et3 & F3).
  assert (F123 : Forall not_upload t3).
  { rewrite Et3. apply Forall_app. now split. }
  rewrite bind_run, uploadDocument_run in E.
  right. exists (fst loaded), token, (a1 ++ a2), t3.
  destruct (net_fetch w t3 (upload_request w (fst loaded) token)) as [response | e].
  - destruct (ok response).
    + destruct (report_run (body response)
                  (t3 ++ [EvFetch (upload_request w (fst loaded) token)]))
        as (text & R).
      rewrite R in E. injection E as <- <-.
      exists [EvLog text]. split; [exact E3 |]. split; [exact F123 |].
      split; [now rewrite <- app_assoc |].
      split; [now repeat constructor | discriminate].
    + injection E as <- <-. exists []. repeat split; auto.
  - injection E as <- <-. exists []. repeat split; auto.
Qed.

Lemma Dist_validateSchema_first w document schemaUrl tr :
  exists rest,
    trace_of (Dist.validateSchema w document schemaUrl tr)
    = tr ++ EvFetch (get_request schemaUrl) :: rest /\ Forall not_upload rest.
Proof.
  unfold Dist.validateSchema, fetch. unfold bind at 1. unfold effect at 1.
  destruct (net_fetch w tr (get_request schemaUrl)) as [response | e].
  - match goal with
    | |- context [trace_of (?m (tr ++ [?e]))] =>
        assert (H : emits not_upload m)
    end.
    { apply emits_if; [apply emits_throw |].
      apply emits_bind; [apply emits_lift | intros schema].
      apply emits_bind; [| intros Ajv].
      { eapply emits_weaken; [apply not_request_not_upload | apply ensureModule_emits]. }
      apply emits_bind; [| intros addFormats].
      { eapply emits_weaken; [apply not_request_not_upload | apply ensureModule_emits]. }
      apply emits_bind; [apply emits_lift | intros ajv].
      apply emits_bind; [apply emits_lift | intros ajv'].
      apply emits_bind; [apply emits_lift | intros validate].
      destruct (validate document) as [valid errors].
      apply emits_if; [apply emits_throw | apply emits_ret]. }
    destruct (H (tr ++ [EvFetch (get_request schemaUrl)])) as (rest & E & F).
    exists rest. split; [| exact F]. rewrite E. now rewrite <- app_assoc.
  - exists []. split; [reflexivity | constructor].
Qed.

(** In a trace with one upload, the upload is found at one place only. *)
Lemma upload_place (before before' after after' : list Event) e e' :
  Forall not_upload before -> Forall not_upload before' ->
  is_upload e = true -> is_upload e' = true ->
  before ++ e :: after = before' ++ e' :: after' ->
  before = before' /\ e = e' /\ after = after'.
Proof.
  revert before'. induction before as [| x b IH]; intros [| y b'] Fb Fb' U U' E.
  - now injection E as -> ->.
  - injection E as -> _. inversion Fb' as [| ? ? N _]; subst.
    unfold not_upload in N. congruence.
  - injection E as -> _. inversion Fb as [| ? ? N _]; subst.
    unfold not_upload in N. congruence.
  - injection E as -> E. inversion Fb; inversion Fb'; subst.
    destruct (IH b') as (-> & -> & ->); auto.
Qed.

(** What comes before an upload, in a trace with no other upload, holds
    no upload. *)
Lemma upload_first (before after bef aft : list Event) e u :
  Forall not_upload bef -> Forall not_upload aft -> is_upload e = true ->
  before ++ e :: after = bef ++ u :: aft ->
  Forall not_upload before.
Proof.
  intros Fb Fa U. revert before.
  induction bef as [| x b IH]; intros [| y b'] Eq.
  - constructor.
  - exfalso. injection Eq as _ Eq.
    assert (I : In e aft).
    { rewrite <- Eq. apply in_or_app. right. now left. }
    rewrite List.Forall_forall in Fa. apply Fa in I. unfold not_upload in I. congruence.
  - constructor.
  - injection Eq as -> Eq. inversion Fb; subst.
    constructor; [assumption | now apply IH].
Qed.

Lemma upload_absent (before after : list Event) e :
  is_upload e = true -> ~ Forall not_upload (before ++ e :: after).
Proof.
  intros U F. apply Forall_app in F as [_ F]. inversion F as [| ? ? N _]; subst.
  unfold not_upload in N. congruence.
Qed.

Lemma last_of_app (l1 l2 b : list Event) x :
  l2 <> [] -> l1 ++ l2 = b ++ [x] -> In x l2.
Proof.
  intros N E. destruct (exists_last N) as (l2' & y & ->).
  rewrite app_assoc in E. apply app_inj_tail in E as [_ ->].
  apply in_or_app. right. now left.
Qed.

Lemma POST_is_upload req : req_method req = POST -> is_upload (EvFetch req) = true.
Proof. intros H. simpl. now rewrite H. Qed.

(** The gate that validation is, for either validator: the upload comes
    right after a call of the validator that returned, and a run that ends
    where and as a call of the validator threw has uploaded nothing. *)
Lemma validation_gate w (validateSchema : Json -> string -> M unit) :
  (forall d u, emits not_upload (validateSchema d u)) ->
  (forall d u tr, exists first rest,
      trace_of (validateSchema d u tr) = tr ++ first :: rest /\
      Forall not_upload (first :: rest)) ->
  validation_enabled w = true ->
  (forall before req after,
     trace_of (run w validateSchema []) = before ++ EvFetch req :: after ->
     req_method req = POST ->
     exists data tr0,
       validateSchema data (schema_url_of w) tr0 = (before, Ok tt) /\
       req_body req = JSON_stringify w data /\
       Forall not_upload before) /\
  (forall data tr0 msg,
     validateSchema data (schema_url_of w) tr0 = run w validateSchema [] ->
     outcome_of (run w validateSchema []) = Throw msg ->
     Forall not_upload (trace_of (run w validateSchema []))).
Proof.
  intros Hv Hfirst Hflag.
  destruct (run w validateSchema []) as [T r] eqn:E.
  destruct (run_shape w validateSchema T r Hv Hflag E)
    as [[F (msg & ->)] | (data & token & tr0 & bef & aft & V & Fb & -> & Fa & Hr)].
  - split.
    + intros before req after ET P. simpl in ET. subst T.
      exfalso. exact (upload_absent _ _ _ (POST_is_upload req P) F).
    + intros _ _ _ _ _. exact F.
  - split.
    + intros before req after ET P. simpl in ET. symmetry in ET.
      assert (Fbefore : Forall not_upload before /\ before = bef /\
                        req = upload_request w data token).
      { pose proof (upload_first before after bef aft (EvFetch req) _ Fb Fa
                      (POST_is_upload req P) ET) as Fbefore.
        destruct (upload_place before bef after aft (EvFetch req)
                    (EvFetch (upload_request w data token)) Fbefore Fb
                    (POST_is_upload req P) eq_refl ET) as (-> & [= ->] & _).
        auto. }
      destruct Fbefore as (Fbefore & -> & ->).
      exists data, tr0. repeat split; auto.
    + intros data' tr0' msg V' O. simpl in O. subst r. simpl.
      rewrite (Hr msg eq_refl) in *.
      destruct (Hfirst data' (schema_url_of w) tr0') as (first & rest & ET & Ffirst).
      rewrite V' in ET. simpl in ET.
      assert (I : In (EvFetch (upload_request w data token)) (first :: rest)).
      { eapply last_of_app; [discriminate | symmetry; exact ET]. }
      rewrite List.Forall_forall in Ffirst. apply Ffirst in I. discriminate.
Qed.

(** C8: in a run with validation enabled, the trace before an upload is,
    whole, the trace at which a call of [validateSchema] returned: the
    validator has run, and returned, before the upload. And a run that
    ends where and as a call of [validateSchema] threw has uploaded
    nothing. *)
Theorem run_validates_before_upload (w : World) :
  validation_enabled w = true ->
  (forall before req after,
     trace_of (Src.run w []) = before ++ EvFetch req :: after ->
     req_method req = POST ->
     exists data tr0,
       Src.validateSchema w data (schema_url_of w) tr0 = (before, Ok tt) /\
       req_body req = JSON_stringify w data /\
       Forall not_upload before) /\
  (forall data tr0 msg,
     Src.validateSchema w data (schema_url_of w) tr0 = Src.run w [] ->
     outcome_of (Src.run w []) = Throw msg ->
     Forall not_upload (trace_of (Src.run w []))).
Proof.
  intros Hflag. apply (validation_gate w (Src.validateSchema w)).
  - apply Src_validateSchema_emits.
  - intros d u tr. destruct (Src_validateSchema_first w d u tr) as (rest & E & F).
    exists (EvFetch (get_request u)), rest. split; [exact E |].
    constructor; [reflexivity | exact F].
  - exact Hflag.
Qed.

Lemma run_validates_before_upload_witness :
  (exists data tr0,
     Src.validateSchema Sample.validated data (schema_url_of Sample.validated) tr0
     = ([EvReadFile "doc.json"; EvFetch (get_request Sample.plain_schema_url);
         EvRequire "ajv"; EvRequire "ajv-formats"], Ok tt) /\
     Some Sample.doc_text = JSON_stringify Sample.validated data /\
     Forall not_upload
       [EvReadFile "doc.json"; EvFetch (get_request Sample.plain_schema_url);
        EvRequire "ajv"; EvRequire "ajv-formats"]) /\
  Forall not_upload (trace_of (Src.run Sample.rejected [])).
Proof.
  split.
  - destruct (run_validates_before_upload Sample.validated) as [H _];
      [vm_compute; reflexivity |].
    apply (H [EvReadFile "doc.json"; EvFetch (get_request Sample.plain_schema_url);
              EvRequire "ajv"; EvRequire "ajv-formats"]
             (upload_request Sample.validated Sample.doc_value "t0ken")
             [EvLog "imported"]); vm_compute; reflexivity.
  - destruct (run_validates_before_upload Sample.rejected) as [_ H];
      [vm_compute; reflexivity |].
    apply (H Sample.bad_value [EvReadFile "bad.json"]
             ("Schema validation failed:" +:+ LF +:+ "data/name must be string"
              +:+ LF +:+ "data/kind must be string")); vm_compute; reflexivity.
Defined.

(** ** Schema Validator *)








(** ** Where the two files and the README part *)

(** C1: the README gives the action an [endpoint] input that overrides the
    upload URL. With that input set, the run uploads to the built-in URL
    all the same: [uploadDocument] takes no URL and [run] reads no such
    input. *)
Theorem upload_ignores_endpoint :
  configured Sample.redirected "endpoint" = Some "https://staging.example.com/import" /\
  Src.main Sample.redirected
  = ([EvReadFile "doc.json";
      EvFetch {| req_method := POST;
                 req_url := default_endpoint;
                 req_headers := [("Content-Type", "application/json");
                                 ("Authorization", "Bearer t0ken")];
                 req_body := Some Sample.doc_text |};
      EvLog "imported"], 0%N) /\
  Dist.main Sample.redirected = Src.main Sample.redirected.
Proof. vm_compute. repeat split. Qed.

(** C2: on a schema that names draft-04, as the default one does, the
    validator of [src/index.js] loads the class of the package [ajv], not
    that of [ajv-draft-04], and compiling throws; the validator of
    [dist/index.js] loads the draft-04 class and accepts the document.
    Both make the class with [allErrors] on and [strict] off and add the
    formats. *)
Theorem src_validator_is_not_draft04 :
  Src.validateSchema Sample.plain Sample.doc_value Sample.default_schema_url []
  = ([EvFetch (get_request Sample.default_schema_url);
      EvRequire "ajv"; EvRequire "ajv-formats"],
     Throw ("no schema with key or ref "
            +:+ Sample.quoted "http://json-schema.org/draft-04/schema#")) /\
  Dist.validateSchema Sample.plain Sample.doc_value Sample.default_schema_url []
  = ([EvFetch (get_request Sample.default_schema_url);
      EvRequire draft04_package; EvRequire "ajv-formats"],
     Ok tt).
Proof. vm_compute. split; reflexivity. Qed.

(** C3: the two files are not equivalent. On the plain configuration, the
    schema of draft-04, the run of [src/index.js] ends with exit code 1
    and uploads nothing; the run of [dist/index.js] uploads and ends with
    exit code 0. *)
Theorem src_dist_differ :
  snd (Src.main Sample.plain) = 1%N /\
  Forall not_upload (fst (Src.main Sample.plain)) /\
  snd (Dist.main Sample.plain) = 0%N /\
  In (EvFetch (upload_request Sample.plain Sample.doc_value "t0ken"))
     (fst (Dist.main Sample.plain)) /\
  Src.main Sample.plain <> Dist.main Sample.plain.
Proof.
  split; [vm_compute; reflexivity |].
  split; [vm_compute; repeat constructor |].
  split; [vm_compute; reflexivity |].
  split; [vm_compute; tauto |].
  vm_compute. discriminate.
Qed.

(** ** More on the Configuration Reader *)

Lemma is_lower_true c : is_lower c = true <-> (97 <= code c <= 122)%nat.
Proof. unfold is_lower. rewrite andb_true_iff, !Nat.leb_le. tauto. Qed.

Lemma code_upper_unit c :
  is_lower c = true -> code (upper_unit c) = (code c - 32)%nat.
Proof.
  intros L. unfold upper_unit. rewrite L. apply is_lower_true in L.
  unfold code in *. rewrite nat_ascii_embedding; lia.
Qed.




Lemma letter_not_space c : letter c -> Ascii.eqb c " " = false.
Proof.
  intros L. destruct (Ascii.eqb_spec c " ") as [-> | _]; [| reflexivity].
  unfold letter in L. vm_compute in L. lia.
Qed.

Lemma upper_unit_same_letter a b :
  same_letter a b -> upper_unit a = upper_unit b.
Proof.
  intros [-> | (La & Lb & H)]; [reflexivity |].
  unfold letter in La, Lb. apply code_inj.
  destruct (is_lower a) eqn:A; destruct (is_lower b) eqn:B.
  - rewrite !code_upper_unit by assumption.
    apply is_lower_true in A, B. revert A B H. generalize (code a) (code b). intros; lia.
  - rewrite code_upper_unit by assumption. unfold upper_unit. rewrite B.
    apply is_lower_true in A.
    assert (B' : ~ (97 <= code b <= 122)%nat) by (rewrite <- is_lower_true; congruence).
    revert A B' La Lb H. generalize (code a) (code b). intros; lia.
  - rewrite (code_upper_unit b) by assumption. unfold upper_unit at 1. rewrite A.
    apply is_lower_true in B.
    assert (A' : ~ (97 <= code a <= 122)%nat) by (rewrite <- is_lower_true; congruence).
    revert B A' La Lb H. generalize (code a) (code b). intros; lia.
  - assert (A' : ~ (97 <= code a <= 122)%nat) by (rewrite <- is_lower_true; congruence).
    assert (B' : ~ (97 <= code b <= 122)%nat) by (rewrite <- is_lower_true; congruence).
    exfalso. revert A' B' La Lb H. generalize (code a) (code b). intros; lia.
Qed.

(** Names that differ in the case of their letters only share one key:
    the environment cannot tell them apart. *)
Theorem input_key_ignores_case (a b : string) :
  equal_ignoring_case a b -> input_key a = input_key b.
Proof.
  intros H. unfold input_key. f_equal. unfold toUpperCase, replace_spaces.
  induction H as [| x y s t Hxy _ IH]; [reflexivity |].
  simpl. rewrite IH. f_equal.
  destruct Hxy as [-> | (Lx & Ly & Hc)]; [reflexivity |].
  rewrite (letter_not_space x Lx), (letter_not_space y Ly).
  apply upper_unit_same_letter. right. auto.
Qed.

Lemma equal_ignoring_case_Token : equal_ignoring_case "Token" "token".
Proof.
  apply eic_cons.
  - right. unfold letter. vm_compute. lia.
  - repeat (apply eic_cons; [apply same_letter_refl |]). apply eic_nil.
Qed.

Lemma input_key_ignores_case_witness : input_key "Token" = input_key "token".
Proof. apply (input_key_ignores_case "Token" "token"). exact equal_ignoring_case_Token. Defined.




(** ** Module loading *)

(** A module that [require] finds is returned at once: nothing is made,
    nothing installed. *)
Theorem ensureModule_present (w : World) (moduleName version : string) (tr : Trace)
    (m : NodeModule) :
  node_require w tr moduleName = Ok m ->
  ensureModule w moduleName version tr = (tr ++ [EvRequire moduleName], Ok m).
Proof.
  intros H. unfold ensureModule, try_catch, require, effect. now rewrite H.
Qed.

Lemma ensureModule_present_witness :
  exists m,
    ensureModule Sample.plain "js-yaml" "4.1.0" [] = ([EvRequire "js-yaml"], Ok m).
Proof.
  exists Sample.js_yaml.
  apply (ensureModule_present Sample.plain "js-yaml" "4.1.0" [] Sample.js_yaml).
  reflexivity.
Defined.

(** A module that [require] does not find is installed by npm, at the
    version asked for, in a new directory under the temporary one, and
    loaded from there: four events, in this order, the answer being that of
    the second [require]. *)
Theorem ensureModule_installs (w : World) (moduleName version : string) (tr : Trace)
    (e tempDir : string) (out : string * string) :
  version <> EmptyString ->
  node_require w tr moduleName = Throw e ->
  fs_mkdtemp w (tr ++ [EvRequire moduleName]) (path_join w [tmpdir w; "apim-action-"])
  = Ok tempDir ->
  proc_execFile w
    (tr ++ [EvRequire moduleName] ++ [EvMkdtemp (path_join w [tmpdir w; "apim-action-"])])
    "npm"
    ["install"; "--silent"; "--no-fund"; "--no-audit"; moduleName +:+ "@" +:+ version]
    {| cwd := Some tempDir; maxBuffer := None |} = Ok out ->
  let installed :=
    [EvRequire moduleName;
     EvMkdtemp (path_join w [tmpdir w; "apim-action-"]);
     EvExecFile "npm"
       ["install"; "--silent"; "--no-fund"; "--no-audit"; moduleName +:+ "@" +:+ version]
       {| cwd := Some tempDir; maxBuffer := None |}] in
  ensureModule w moduleName version tr
  = (tr ++ installed ++ [EvRequire (path_join w [tempDir; "node_modules"; moduleName])],
     node_require w (tr ++ installed) (path_join w [tempDir; "node_modules"; moduleName])).
Proof.
  intros Hv Hreq Hdir Hnpm installed.
  assert (T : truthy version = true).
  { unfold truthy. destruct (String.eqb_spec version ""); [contradiction | reflexivity]. }
  unfold ensureModule, try_catch, bind, require, mkdtemp, execFileAsync, effect.
  rewrite Hreq, Hdir, T. rewrite <- !app_assoc. simpl app.
  simpl app in Hnpm. rewrite Hnpm. reflexivity.
Qed.

Lemma ensureModule_installs_witness :
  ensureModule (Sample.bare ∅ false) "js-yaml" "4.1.0" []
  = ([EvRequire "js-yaml";
      EvMkdtemp "/tmp/apim-action-";
      EvExecFile "npm" ["install"; "--silent"; "--no-fund"; "--no-audit"; "js-yaml@4.1.0"]
        {| cwd := Some "/tmp/apim-action-a1b2c3"; maxBuffer := None |};
      EvRequire "/tmp/apim-action-a1b2c3/node_modules/js-yaml"],
     Ok Sample.js_yaml).
Proof.
  apply (ensureModule_installs (Sample.bare ∅ false) "js-yaml" "4.1.0" []
           "Cannot find module 'js-yaml'" "/tmp/apim-action-a1b2c3" ("", ""));
    [discriminate | reflexivity | reflexivity | reflexivity].
Defined.

(** Whatever happens, [ensureModule] makes no request of its own to the
    network: its events are those of [require], the new directory and npm. *)
Theorem ensureModule_offline (w : World) (moduleName version : string) (tr : Trace) :
  exists added,
    trace_of (ensureModule w moduleName version tr) = tr ++ added /\
    Forall not_request added /\ (1 <= length added <= 4)%nat.
Proof.
  unfold ensureModule, try_catch, bind, require, mkdtemp, execFileAsync, effect.
  destruct (node_require w tr moduleName).
  - exists [EvRequire moduleName]. repeat split; simpl; try lia. now repeat constructor.
  - destruct (fs_mkdtemp w _ _) as [tempDir | ?].
    + destruct (proc_execFile w _ _ _ _).
      * eexists [_; _; _; _]. rewrite <- !app_assoc. repeat split; simpl; try lia.
        now repeat constructor.
      * eexists [_; _; _]. rewrite <- !app_assoc. repeat split; simpl; try lia.
        now repeat constructor.
    + eexists [_; _]. rewrite <- !app_assoc. repeat split; simpl; try lia.
      now repeat constructor.
Qed.

(** ** More on the Tool Provisioner *)

(** A [ytt] in the working directory is used as it is, on any platform:
    no asset is resolved, nothing is downloaded. *)
Theorem ensureYtt_local (w : World) (version : string) (tr : Trace) :
  fs_access w tr "ytt" = true ->
  ensureYtt w version tr = (tr ++ [EvAccess "ytt"], Ok (path_resolve w "ytt")).
Proof.
  intros H. unfold ensureYtt, fileExists, accessSync, bind, effect, ret. now rewrite H.
Qed.

Lemma ensureYtt_local_witness :
  ensureYtt (Sample.bare ∅ true) "v0.48.0" []
  = ([EvAccess "ytt"], Ok "/home/runner/work/ytt").
Proof. apply (ensureYtt_local (Sample.bare ∅ true) "v0.48.0" []). reflexivity. Defined.

(** The asset of a release: one of four file names, under the release's
    download address. *)
Theorem resolveYttAsset_asset (w : World) (version url fileName : string) :
  resolveYttAsset w version = Ok (url, fileName) ->
  url = "https://github.com/carvel-dev/ytt/releases/download/" +:+ version
        +:+ "/" +:+ fileName /\
  In fileName ["ytt-darwin-amd64"; "ytt-darwin-arm64"; "ytt-linux-amd64"; "ytt-linux-arm64"].
Proof.
  unfold resolveYttAsset.
  destruct (String.eqb (platform w) "darwin");
    [| destruct (String.eqb (platform w) "linux"); [| discriminate]];
    (destruct (String.eqb (arch w) "x64");
     [| destruct (String.eqb (arch w) "arm64"); [| discriminate]]);
    intros [= <- <-]; (split; [reflexivity | simpl; tauto]).
Qed.

Lemma resolveYttAsset_asset_witness :
  Sample.ytt_url
  = "https://github.com/carvel-dev/ytt/releases/download/" +:+ "v0.48.0"
    +:+ "/" +:+ "ytt-linux-amd64" /\
  In "ytt-linux-amd64"
     ["ytt-darwin-amd64"; "ytt-darwin-arm64"; "ytt-linux-amd64"; "ytt-linux-arm64"].
Proof.
  apply (resolveYttAsset_asset Sample.plain "v0.48.0" Sample.ytt_url "ytt-linux-amd64").
  reflexivity.
Defined.

(** With no local [ytt], the release's asset is downloaded into a new
    directory, written there and made executable (mode 0o755), in this
    order; the path of the file is the answer. *)
Theorem ensureYtt_downloads (w : World) (version url fileName downloadDir : string)
    (tr : Trace) (response : Response) :
  fs_access w tr "ytt" = false ->
  resolveYttAsset w version = Ok (url, fileName) ->
  fs_mkdtemp w (tr ++ [EvAccess "ytt"]) (path_join w [tmpdir w; "apim-ytt-"])
  = Ok downloadDir ->
  net_fetch w (tr ++ [EvAccess "ytt"; EvMkdtemp (path_join w [tmpdir w; "apim-ytt-"])])
    (get_request url) = Ok response ->
  ok response = true ->
  fs_writeFile w
    (tr ++ [EvAccess "ytt"; EvMkdtemp (path_join w [tmpdir w; "apim-ytt-"]);
            EvFetch (get_request url)])
    (path_join w [downloadDir; fileName]) (body response) = Ok tt ->
  fs_chmod w
    (tr ++ [EvAccess "ytt"; EvMkdtemp (path_join w [tmpdir w; "apim-ytt-"]);
            EvFetch (get_request url);
            EvWriteFile (path_join w [downloadDir; fileName]) (body response)])
    (path_join w [downloadDir; fileName]) 493 = Ok tt ->
  ensureYtt w version tr
  = (tr ++ [EvAccess "ytt"; EvMkdtemp (path_join w [tmpdir w; "apim-ytt-"]);
            EvFetch (get_request url);
            EvWriteFile (path_join w [downloadDir; fileName]) (body response);
            EvChmod (path_join w [downloadDir; fileName]) 493],
     Ok (path_join w [downloadDir; fileName])).
Proof.
  intros Hno Hasset Hdir Hfetch Hok Hwrite Hmode.
  unfold ensureYtt, fileExists, accessSync, mkdtemp, fetch, writeFile, chmod,
    bind, effect, lift, ret.
  rewrite Hno, Hasset. cbv beta iota. rewrite Hdir. cbv beta iota.
  rewrite <- ?app_assoc. simpl app. rewrite Hfetch. cbv beta iota.
  rewrite Hok. cbn [negb]. cbv beta iota.
  rewrite <- ?app_assoc. simpl app. rewrite Hwrite. cbv beta iota.
  rewrite <- ?app_assoc. simpl app. rewrite Hmode. cbv beta iota.
  rewrite <- ?app_assoc. reflexivity.
Qed.

Lemma ensureYtt_downloads_witness :
  ensureYtt (Sample.bare ∅ false) "v0.48.0" []
  = ([EvAccess "ytt"; EvMkdtemp "/tmp/apim-ytt-";
      EvFetch (get_request Sample.ytt_url);
      EvWriteFile "/tmp/apim-ytt-a1b2c3/ytt-linux-amd64" "#!ytt";
      EvChmod "/tmp/apim-ytt-a1b2c3/ytt-linux-amd64" 493],
     Ok "/tmp/apim-ytt-a1b2c3/ytt-linux-amd64").
Proof.
  apply (ensureYtt_downloads (Sample.bare ∅ false) "v0.48.0" Sample.ytt_url
           "ytt-linux-amd64" "/tmp/apim-ytt-a1b2c3" []
           {| status := 200; statusText := "OK"; body := "#!ytt" |});
    reflexivity.
Defined.

(** A download that is refused throws with the status and its text, and
    leaves nothing written. *)
Theorem ensureYtt_download_refused (w : World) (version url fileName downloadDir : string)
    (tr : Trace) (response : Response) :
  fs_access w tr "ytt" = false ->
  resolveYttAsset w version = Ok (url, fileName) ->
  fs_mkdtemp w (tr ++ [EvAccess "ytt"]) (path_join w [tmpdir w; "apim-ytt-"])
  = Ok downloadDir ->
  net_fetch w (tr ++ [EvAccess "ytt"; EvMkdtemp (path_join w [tmpdir w; "apim-ytt-"])])
    (get_request url) = Ok response ->
  ok response = false ->
  ensureYtt w version tr
  = (tr ++ [EvAccess "ytt"; EvMkdtemp (path_join w [tmpdir w; "apim-ytt-"]);
            EvFetch (get_request url)],
     Throw ("Failed to download ytt: " +:+ show_number (status response) +:+ " "
            +:+ statusText response)).
Proof.
  intros Hno Hasset Hdir Hfetch Hok.
  unfold ensureYtt, fileExists, accessSync, mkdtemp, fetch, bind, effect, lift, throw.
  rewrite Hno, Hasset. cbv beta iota. rewrite Hdir. cbv beta iota.
  rewrite <- ?app_assoc. simpl app. rewrite Hfetch. cbv beta iota.
  rewrite Hok. cbn [negb]. cbv beta iota. reflexivity.
Qed.

Lemma ensureYtt_download_refused_witness :
  ensureYtt Sample.plain "v0.48.0" []
  = ([EvAccess "ytt"; EvMkdtemp "/tmp/apim-ytt-"; EvFetch (get_request Sample.ytt_url)],
     Throw "Failed to download ytt: 404 Not Found").
Proof.
  apply (ensureYtt_download_refused Sample.plain "v0.48.0" Sample.ytt_url
           "ytt-linux-amd64" "/tmp/apim-ytt-a1b2c3" []
           {| status := 404; statusText := "Not Found"; body := "" |});
    reflexivity.
Defined.

(** ** Rendering *)









(** ** More on the Schema Validator *)

(** A schema that cannot be downloaded stops the validator there, in
    either file: the error carries the status and its text, and no package
    is loaded. *)
Theorem validateSchema_fetch_refused (w : World) (document : Json) (schemaUrl : string)
    (tr : Trace) (response : Response) :
  net_fetch w tr (get_request schemaUrl) = Ok response ->
  ok response = false ->
  Src.validateSchema w document schemaUrl tr
  = (tr ++ [EvFetch (get_request schemaUrl)],
     Throw ("Failed to fetch schema: " +:+ show_number (status response) +:+ " "
            +:+ statusText response)) /\
  Dist.validateSchema w document schemaUrl tr
  = Src.validateSchema w document schemaUrl tr.
Proof.
  intros Hfetch Hok.
  unfold Src.validateSchema, Dist.validateSchema, fetch, bind, effect, throw.
  rewrite Hfetch. cbv beta iota. rewrite Hok. split; reflexivity.
Qed.

Lemma validateSchema_fetch_refused_witness :
  Src.validateSchema Sample.plain Sample.doc_value "https://example.com/none.json" []
  = ([EvFetch (get_request "https://example.com/none.json")],
     Throw "Failed to fetch schema: 404 Not Found").
Proof.
  apply (validateSchema_fetch_refused Sample.plain Sample.doc_value
           "https://example.com/none.json" []
           {| status := 404; statusText := "Not Found"; body := "" |});
    reflexivity.
Defined.

(** The validator of [dist/index.js], its class loaded from
    [ajv-draft-04]: it returns when the compiled schema accepts the
    document, and else throws the heading and the text of the errors. *)
Theorem Dist_validateSchema_verdict (w : World) (document : Json) (schemaUrl : string)
    (tr tr1 tr2 : Trace) (response : Response) (schema : Json)
    (AjvDraft04 addFormats : NodeModule) (ajv ajv' : AjvInstance)
    (validate : ValidateFunction) (valid : bool) (errors : list ErrorObject) :
  net_fetch w tr (get_request schemaUrl) = Ok response ->
  ok response = true ->
  JSON_parse w (body response) = Ok schema ->
  ensureModule w draft04_package "1.0.0" (tr ++ [EvFetch (get_request schemaUrl)])
  = (tr1, Ok AjvDraft04) ->
  ensureModule w "ajv-formats" "2.1.1" tr1 = (tr2, Ok addFormats) ->
  construct AjvDraft04 {| allErrors := true; strict := false |} = Ok ajv ->
  call addFormats ajv = Ok ajv' ->
  compile ajv' schema = Ok validate ->
  validate document = (valid, errors) ->
  Dist.validateSchema w document schemaUrl tr
  = (tr2, if valid then Ok tt
          else Throw ("Schema validation failed:" +:+ LF +:+ errorsText errors LF)).
Proof.
  intros Hfetch Hok Hparse HAjv Hformats Hnew Hcall Hcompile Hverdict.
  unfold draft04_package in HAjv.
  unfold Dist.validateSchema, fetch, bind, effect, lift, throw, ret.
  rewrite Hfetch. cbv beta iota. rewrite Hok. cbn [negb]. cbv beta iota.
  rewrite Hparse. cbv beta iota. rewrite HAjv. cbv beta iota.
  rewrite Hformats. cbv beta iota. rewrite Hnew. cbv beta iota.
  rewrite Hcall. cbv beta iota. rewrite Hcompile. cbv beta iota.
  rewrite Hverdict. now destruct valid.
Qed.

Lemma Dist_validateSchema_verdict_witness :
  Dist.validateSchema Sample.plain Sample.doc_value Sample.default_schema_url []
  = ([EvFetch (get_request Sample.default_schema_url);
      EvRequire "ajv-draft-04"; EvRequire "ajv-formats"], Ok tt).
Proof.
  apply (Dist_validateSchema_verdict Sample.plain Sample.doc_value
           Sample.default_schema_url []
           [EvFetch (get_request Sample.default_schema_url); EvRequire "ajv-draft-04"]
           [EvFetch (get_request Sample.default_schema_url); EvRequire "ajv-draft-04";
            EvRequire "ajv-formats"]
           {| status := 200; statusText := "OK"; body := Sample.schema_text |}
           Sample.schema_value Sample.ajv_draft04 Sample.ajv_formats
           (Sample.instance (fun _ => Ok tt) Sample.violations)
           (Sample.instance (fun _ => Ok tt) Sample.violations)
           (Sample.verdict_function Sample.violations) true []);
    vm_compute; reflexivity.
Defined.

(** The run of [dist/index.js] keeps the order of validation and upload
    too. *)
Theorem Dist_run_validates_before_upload (w : World) :
  validation_enabled w = true ->
  (forall before req after,
     trace_of (Dist.run w []) = before ++ EvFetch req :: after ->
     req_method req = POST ->
     exists data tr0,
       Dist.validateSchema w data (schema_url_of w) tr0 = (before, Ok tt) /\
       req_body req = JSON_stringify w data /\
       Forall not_upload before) /\
  (forall data tr0 msg,
     Dist.validateSchema w data (schema_url_of w) tr0 = Dist.run w [] ->
     outcome_of (Dist.run w []) = Throw msg ->
     Forall not_upload (trace_of (Dist.run w []))).
Proof.
  intros Hflag. apply (validation_gate w (Dist.validateSchema w)).
  - apply Dist_validateSchema_emits.
  - intros d u tr. destruct (Dist_validateSchema_first w d u tr) as (rest & E & F).
    exists (EvFetch (get_request u)), rest. split; [exact E |].
    constructor; [reflexivity | exact F].
  - exact Hflag.
Qed.

Lemma Dist_run_validates_before_upload_witness :
  exists data tr0,
    Dist.validateSchema Sample.plain data (schema_url_of Sample.plain) tr0
    = ([EvReadFile "doc.json"; EvFetch (get_request Sample.default_schema_url);
        EvRequire "ajv-draft-04"; EvRequire "ajv-formats"], Ok tt) /\
    Some Sample.doc_text = JSON_stringify Sample.plain data /\
    Forall not_upload
      [EvReadFile "doc.json"; EvFetch (get_request Sample.default_schema_url);
       EvRequire "ajv-draft-04"; EvRequire "ajv-formats"].
Proof.
  destruct (Dist_run_validates_before_upload Sample.plain) as [H _];
    [vm_compute; reflexivity |].
  apply (H [EvReadFile "doc.json"; EvFetch (get_request Sample.default_schema_url);
            EvRequire "ajv-draft-04"; EvRequire "ajv-formats"]
           (upload_request Sample.plain Sample.doc_value "t0ken")
           [EvLog "imported"]); vm_compute; reflexivity.
Defined.

(** ** More on the Uploader *)

(** The upload is one request: a POST to the built-in address, the same in
    every environment, with the content type, the token as bearer and the
    serialized document; and the text it answers with is the body of a
    response in the 200s, as it is. *)
Theorem uploadDocument_request (w : World) (document : Json) (token : string) (tr : Trace) :
  (exists req,
     trace_of (uploadDocument w document token tr) = tr ++ [EvFetch req] /\
     req_method req = POST /\
     req_url req = default_endpoint /\
     req_headers req = [("Content-Type", "application/json");
                        ("Authorization", "Bearer " +:+ token)] /\
     req_body req = JSON_stringify w document) /\
  (forall text,
     outcome_of (uploadDocument w document token tr) = Ok text <->
     exists response,
       net_fetch w tr (upload_request w document token) = Ok response /\
       ok response = true /\ body response = text).
Proof.
  rewrite uploadDocument_run. split.
  - exists (upload_request w document token). repeat split.
  - intros text. simpl.
    destruct (net_fetch w tr (upload_request w document token)) as [response | e].
    + destruct (ok response) eqn:K.
      * split.
        -- intros [= <-]. now exists response.
        -- now intros (r & [= <-] & _ & <-).
      * split; [discriminate |]. intros (r & [= <-] & K' & _). congruence.
    + split; [discriminate |]. now intros (r & H & _).
Qed.

(** An upload that is refused throws with the status, its text and, on a
    line of its own, the body of the response. *)
Theorem uploadDocument_refused (w : World) (document : Json) (token : string) (tr : Trace)
    (response : Response) :
  net_fetch w tr (upload_request w document token) = Ok response ->
  ok response = false ->
  exists first,
    outcome_of (uploadDocument w document token tr)
    = Throw (first +:+ LF +:+ body response) /\
    first = "Upload failed: " +:+ show_number (status response) +:+ " "
            +:+ statusText response.
Proof.
  intros Hfetch Hok. rewrite uploadDocument_run, Hfetch, Hok. simpl.
  eexists. split; [| reflexivity]. now rewrite !append_assoc.
Qed.









Lemma uploadDocument_refused_witness :
  exists first,
    outcome_of (uploadDocument (Sample.guarded ∅) Sample.doc_value "wrong" [])
    = Throw (first +:+ LF +:+ "bad token") /\
    first = "Upload failed: " +:+ show_number 401 +:+ " " +:+ "Unauthorized".
Proof.
  apply (uploadDocument_refused (Sample.guarded ∅) Sample.doc_value "wrong" []
           {| status := 401; statusText := "Unauthorized"; body := "bad token" |});
    reflexivity.
Defined.

(** ** More on the Document Loader *)




(** ** More on the run *)







(** With validation switched off the two files run alike: what sets them
    apart is in the validator only. *)
Theorem run_without_validation (w : World) (tr : Trace) :
  validation_enabled w = false ->
  Src.run w tr = Dist.run w tr /\ Src.main w = Dist.main w.
Proof.
  intros Hflag.
  assert (E : forall t, run w (Src.validateSchema w) t = run w (Dist.validateSchema w) t).
  { intros t. rewrite !run_unfold, Hflag. reflexivity. }
  split; [apply E |]. unfold Src.main, Dist.main, main. now rewrite E.
Qed.

Lemma run_without_validation_witness :
  Src.run Sample.redirected [] = Dist.run Sample.redirected [] /\
  Src.main Sample.redirected = Dist.main Sample.redirected.
Proof.
  apply (run_without_validation Sample.redirected []). vm_compute. reflexivity.
Defined.

(** The process: exit code 0 exactly when [run] returned; when it threw,
    the message is printed last, after everything the run did, or the error
    itself when the message is empty, and the exit code is 1. *)
Theorem main_exit_code (w : World) (validateSchema : Json -> string -> M unit) :
  (snd (main w validateSchema) = 0%N <-> outcome_of (run w validateSchema []) = Ok tt) /\
  (forall msg,
     outcome_of (run w validateSchema []) = Throw msg ->
     main w validateSchema
     = (trace_of (run w validateSchema [])
        ++ [EvError (if String.eqb msg "" then None else Some msg)], 1%N)).
Proof.
  unfold main. destruct (run w validateSchema []) as [T [[] | e]]; simpl; split.
  - tauto.
  - discriminate.
  - split; discriminate.
  - intros msg [= <-]. unfold truthy. now destruct (String.eqb e "").
Qed.
